(** * Tool-augmented generation loop of [backend/ai_generator.py]

    A shallow embedding of [AIGenerator.generate_response] together with the
    properties of its bounded tool-calling loop.

    The two external collaborators of the method, the inference client
    ([self.client.messages.create]) and the tool manager
    ([tool_manager.execute_tool]), are opaque: each is a function of the
    request and of everything that was exchanged with the collaborators so
    far.  That exchange history is the only state the method threads, and
    it is what the Python tests inspect through [call_count] and
    [call_args]. *)

From Stdlib Require Import String Ascii List Arith Bool Lia.
From Stdlib Require Import Decimal DecimalString.
Import ListNotations.
Local Open Scope string_scope.

(** ** Python values *)

(** Exceptions that reach an [except Exception] clause, with their [str]. *)
Inductive Exception : Type :=
| IndexError                          (* [][0] *)
| AttributeError (message : string)   (* a block without the attribute *)
| RaisedError (message : string).     (* raised by a collaborator *)

Definition str (e : Exception) : string :=
  match e with
  | IndexError => "list index out of range"
  | AttributeError message => message
  | RaisedError message => message
  end.

Inductive Result (A : Type) : Type :=
| Ok (value : A)
| Err (e : Exception).
Arguments Ok {A} value.
Arguments Err {A} e.

(** [f"{n}"] for a non-negative integer. *)
Definition str_of_nat (n : nat) : string :=
  NilEmpty.string_of_uint (Nat.to_uint n).

Definition dq : string := String "034"%char EmptyString.
Definition nl : string := String "010"%char EmptyString.

(** The class constant, byte for byte as the source file has it. *)
Definition SYSTEM_PROMPT : string :=
  " You are an AI assistant specialized in course materials and educational content with access to comprehensive search tools for course information.

Available Tools:
- **search_course_content**: Search within course materials for specific content, topics, or detailed educational information
- **get_course_outline**: Get complete course outlines including course title, course link, and full lesson listings

Tool Usage Guidelines:
- **Course outline requests**: Use get_course_outline for questions about course structure, lesson lists, or course overviews
- **Content/topic questions**: Use search_course_content for specific course content, explanations, or detailed materials
- **Sequential tool usage**: You may use multiple tool calls across up to 2 rounds to gather comprehensive information for complex queries
- **Multi-round scenarios**: Use sequential calls for comparisons, multi-part questions, or when information from different courses/lessons is needed
- Synthesize tool results into accurate, fact-based responses
- If tool yields no results, state this clearly without offering alternatives

Response Protocol:
- **General knowledge questions**: Answer using existing knowledge without using tools
- **Course outline queries**: Use get_course_outline to provide course title, course link, and complete lesson breakdown
- **Course content queries**: Use search_course_content first, then answer
- **Complex queries**: Break down into multiple tool calls if needed (e.g., get outline first, then search for specific content)
- **No meta-commentary**:
 - Provide direct answers only â€” no reasoning process, tool explanations, or question-type analysis
 - Do not mention "
  ++ dq ++ "based on the search results"
  ++ dq ++ " or "
  ++ dq ++ "using the tool"
  ++ dq ++ "

All responses must be:
1. **Brief, Concise and focused** - Get to the point quickly
2. **Educational** - Maintain instructional value
3. **Clear** - Use accessible language
4. **Example-supported** - Include relevant examples when they aid understanding
Provide only the direct answer to what was asked.
".

Definition max_rounds : nat := 2.

Section Orchestrator.

(** A tool definition of the catalog and the keyword arguments of a tool
    invocation are passed through untouched. *)
Context {ToolDef ToolInput : Type}.

(** ** Data model *)

Inductive ContentBlock : Type :=
| TextBlock (text : string)
| ToolUseBlock (id name : string) (input : ToolInput).

Definition block_type (b : ContentBlock) : string :=
  match b with
  | TextBlock _ => "text"
  | ToolUseBlock _ _ _ => "tool_use"
  end.

Record Response : Type := mkResponse {
  stop_reason : string;
  content : list ContentBlock
}.

(** [{"type": "tool_result", "tool_use_id": ..., "content": ...}] *)
Record ToolResult : Type := mkToolResult {
  result_type : string;
  tool_use_id : string;
  result_content : string
}.

Inductive MessageContent : Type :=
| PlainText (text : string)
| Blocks (blocks : list ContentBlock)
| ToolResults (results : list ToolResult).

Record Message : Type := mkMessage {
  role : string;
  message_content : MessageContent
}.

Record ToolChoice : Type := mkToolChoice { choice_type : string }.

(** The keyword arguments of [client.messages.create]; [tools] and
    [tool_choice] are keys that may be absent. *)
Record ApiParams : Type := mkApiParams {
  model : string;
  temperature : nat;
  max_tokens : nat;
  messages : list Message;
  system : string;
  tools : option (list ToolDef);
  tool_choice : option ToolChoice
}.

(** One exchange with a collaborator: the request and what came back. *)
Inductive Call : Type :=
| ApiCall (round_info : string) (api_params : ApiParams)
          (outcome : Result Response)
| ToolCall (tool_name : string) (input : ToolInput)
           (outcome : Result string).

Definition Trace : Type := list Call.

Record AIGenerator : Type := mkAIGenerator {
  messages_create : Trace -> ApiParams -> Result Response;
  self_model : string
}.

Record ToolManager : Type := mkToolManager {
  execute_tool : Trace -> string -> ToolInput -> Result string
}.

(** ** Effects: history, exceptions, and fuel for the [while] loop *)

Definition M (A : Type) : Type := Trace -> option (Result A * Trace).

Definition ret {A : Type} (a : A) : M A := fun h => Some (Ok a, h).

Definition raise {A : Type} (e : Exception) : M A := fun h => Some (Err e, h).

Definition out_of_fuel {A : Type} : M A := fun _ => None.

Definition bind {A B : Type} (c : M A) (k : A -> M B) : M B :=
  fun h =>
    match c h with
    | None => None
    | Some (Ok a, h') => k a h'
    | Some (Err e, h') => Some (Err e, h')
    end.

Definition try_except {A : Type} (body : M A) (handler : Exception -> M A)
  : M A :=
  fun h =>
    match body h with
    | Some (Err e, h') => handler e h'
    | other => other
    end.

(** Runs a [try] body and hands its outcome, returned or raised, to the
    code that follows. *)
Definition attempt {A : Type} (body : M A) : M (Result A) :=
  fun h =>
    match body h with
    | None => None
    | Some (r, h') => Some (Ok r, h')
    end.

Definition lift {A : Type} (r : Result A) : M A := fun h => Some (r, h).

Notation "x <- c ;; k" := (bind c (fun x => k))
  (at level 61, c at next level, right associativity).

(** Truthiness of the optional arguments: [None], the empty string and the
    empty list are false.  A tool manager is a plain object, true whenever
    it is not [None], so [tool_manager] is tested by matching on the
    option. *)
Definition truthy_str (s : option string) : bool :=
  match s with
  | Some (String _ _) => true
  | _ => false
  end.

Definition truthy_list {A : Type} (l : option (list A)) : bool :=
  match l with
  | Some (_ :: _) => true
  | _ => false
  end.

(** ** The method *)

Variable self : AIGenerator.

(** [_call_anthropic_api]: the log records it writes do not influence the
    control flow and are left out; a failure of the client is re-raised. *)
Definition call_anthropic_api (api_params : ApiParams) (round_info : string)
  : M Response :=
  fun h =>
    let outcome := messages_create self h api_params in
    Some (outcome, (h ++ [ApiCall round_info api_params outcome])%list).

(** [tool_manager.execute_tool(content_block.name, **content_block.input)] *)
Definition call_execute_tool (tool_manager : ToolManager) (name : string)
  (input : ToolInput) : M string :=
  fun h =>
    let outcome := execute_tool tool_manager h name input in
    Some (outcome, (h ++ [ToolCall name input outcome])%list).

(** [response.content[0].text] *)
Definition first_block_text (response : Response) : Result string :=
  match content response with
  | [] => Err IndexError
  | TextBlock text :: _ => Ok text
  | ToolUseBlock _ _ _ :: _ =>
      Err (AttributeError "'ToolUseBlock' object has no attribute 'text'")
  end.

(** [f"{conversation_history}"] *)
Definition format_history (conversation_history : option string) : string :=
  match conversation_history with
  | Some history => history
  | None => "None"
  end.

Definition system_content_of (conversation_history : option string) : string :=
  if truthy_str conversation_history
  then SYSTEM_PROMPT ++ nl ++ nl ++ "Previous conversation:" ++ nl
       ++ format_history conversation_history
  else SYSTEM_PROMPT.

Definition tool_result_ok (id tool_result : string) : ToolResult :=
  {| result_type := "tool_result"; tool_use_id := id;
     result_content := tool_result |}.

Definition tool_result_failed (id : string) (e : Exception) : ToolResult :=
  {| result_type := "tool_result"; tool_use_id := id;
     result_content := "Tool execution failed: " ++ str e |}.

(** The [for content_block in response.content] loop, carrying
    [tool_results] and [tool_execution_failed].  A block whose [type] is
    not ["tool_use"] is skipped; the [try] covers the dispatch and the
    append, and the loop goes on after either branch. *)
Fixpoint execute_tool_blocks (tool_manager : ToolManager)
  (blocks : list ContentBlock) (tool_results : list ToolResult)
  (tool_execution_failed : bool) : M (list ToolResult * bool) :=
  match blocks with
  | [] => ret (tool_results, tool_execution_failed)
  | TextBlock _ :: rest =>
      execute_tool_blocks tool_manager rest tool_results tool_execution_failed
  | ToolUseBlock id name input :: rest =>
      outcome <- attempt (call_execute_tool tool_manager name input) ;;
      match outcome with
      | Ok tool_result =>
          execute_tool_blocks tool_manager rest
            (tool_results ++ [tool_result_ok id tool_result])%list
            tool_execution_failed
      | Err e =>
          execute_tool_blocks tool_manager rest
            (tool_results ++ [tool_result_failed id e])%list
            true
      end
  end.

Section Run.

(** What stays fixed during a run: the system content and the [tools] and
    [tool_manager] arguments.  The loop tests
    [response.stop_reason == "tool_use" and tool_manager]. *)
Variable system_content : string.
Variable tool_catalog : option (list ToolDef).
Variable tool_manager : option ToolManager.

(** [{**self.base_params, "messages": messages, "system": system_content}] *)
Definition base_with (msgs : list Message) : ApiParams :=
  {| model := self_model self; temperature := 0; max_tokens := 800;
     messages := msgs; system := system_content;
     tools := None; tool_choice := None |}.

(** The parameters of a call inside the loop: the catalog and
    [tool_choice = {"type": "auto"}] are added [if tools]. *)
Definition loop_params (msgs : list Message) : ApiParams :=
  if truthy_list tool_catalog
  then {| model := self_model self; temperature := 0; max_tokens := 800;
          messages := msgs; system := system_content;
          tools := tool_catalog;
          tool_choice := Some {| choice_type := "auto" |} |}
  else base_with msgs.

Definition final_params (msgs : list Message) : ApiParams := base_with msgs.

(** The local variables the loop updates: [round_count] and [messages]
    (named [conversation] here, [messages] being the request's field). *)
Record Locals : Type := mkLocals {
  round_count : nat;
  conversation : list Message
}.

(** How one iteration of the [while] loop ends. *)
Inductive Control : Type :=
| Continue (v : Locals)
| Break (v : Locals)
| Return (text : string).

Definition round_info_of (n : nat) : string :=
  if Nat.ltb 0 n then "Round " ++ str_of_nat (n + 1) else "Initial".

Definition assistant_message (response : Response) : Message :=
  {| role := "assistant"; message_content := Blocks (content response) |}.

Definition tool_results_message (tool_results : list ToolResult) : Message :=
  {| role := "user"; message_content := ToolResults tool_results |}.

Definition round_error (n : nat) (e : Exception) : string :=
  "Error in round " ++ str_of_nat (n + 1) ++ ": " ++ str e.

(** The body of the [while] loop.  Nothing raises between
    [round_count += 1] and the end of the iteration, so the handler sees
    the counter as it was when the iteration started. *)
Definition loop_body (v : Locals) : M Control :=
  let api_params := loop_params (conversation v) in
  try_except
    (let round_info := round_info_of (round_count v) in
     response <- call_anthropic_api api_params round_info ;;
     match (if stop_reason response =? "tool_use" then tool_manager
            else None) with
     | Some manager =>
         let round_count' := round_count v + 1 in
         let messages1 :=
           (conversation v ++ [assistant_message response])%list in
         outcome <- execute_tool_blocks manager (content response) [] false ;;
         let tool_results := fst outcome in
         let tool_execution_failed := snd outcome in
         let messages2 :=
           match tool_results with
           | [] => messages1
           | _ :: _ => (messages1 ++ [tool_results_message tool_results])%list
           end in
         let v' := {| round_count := round_count';
                      conversation := messages2 |} in
         if tool_execution_failed then ret (Break v') else ret (Continue v')
     | None =>
         text <- lift (first_block_text response) ;;
         ret (Return text)
     end)
    (fun e =>
       if Nat.eqb (round_count v) 0 then raise e
       else ret (Return (round_error (round_count v) e))).

(** How the [while] loop ends: by [return], or by falling through to the
    code after it (condition false, or [break]). *)
Inductive LoopExit : Type :=
| Returned (text : string)
| FellThrough (v : Locals).

Fixpoint while_loop (fuel : nat) (v : Locals) : M LoopExit :=
  if Nat.ltb (round_count v) max_rounds then
    match fuel with
    | O => out_of_fuel
    | S fuel' =>
        step <- loop_body v ;;
        match step with
        | Continue v' => while_loop fuel' v'
        | Break v' => ret (FellThrough v')
        | Return text => ret (Returned text)
        end
    end
  else ret (FellThrough v).

Definition final_error (e : Exception) : string :=
  "Error generating final response: " ++ str e.

(** The code after the loop. *)
Definition final_synthesis (msgs : list Message) : M string :=
  try_except
    (final_response <- call_anthropic_api (final_params msgs) "Final" ;;
     lift (first_block_text final_response))
    (fun e => ret (final_error e)).

Definition user_message (query : string) : Message :=
  {| role := "user"; message_content := PlainText query |}.

Definition initial_locals (query : string) : Locals :=
  {| round_count := 0; conversation := [user_message query] |}.

Definition run_rounds (fuel : nat) (query : string) : M string :=
  exit <- while_loop fuel (initial_locals query) ;;
  match exit with
  | Returned text => ret text
  | FellThrough v => final_synthesis (conversation v)
  end.

End Run.

(** [generate_response(query, conversation_history, tools, tool_manager)];
    [fuel] bounds the iterations of the [while] loop. *)
Definition generate_response_fuel (fuel : nat) (query : string)
  (conversation_history : option string) (tool_catalog : option (list ToolDef))
  (tool_manager : option ToolManager) : M string :=
  run_rounds (system_content_of conversation_history) tool_catalog
    tool_manager fuel query.

Definition generate_response : string -> option string ->
  option (list ToolDef) -> option ToolManager -> M string :=
  generate_response_fuel max_rounds.

(** ** Reading the history *)

Definition is_api_call (c : Call) : bool :=
  match c with
  | ApiCall _ _ _ => true
  | ToolCall _ _ _ => false
  end.

Definition is_tool_call (c : Call) : bool := negb (is_api_call c).

Definition api_call_count (h : Trace) : nat := length (filter is_api_call h).

Definition tool_call_count (h : Trace) : nat := length (filter is_tool_call h).

Definition is_tool_use (b : ContentBlock) : bool :=
  block_type b =? "tool_use".

Definition call_failed (c : Call) : bool :=
  match c with
  | ToolCall _ _ (Err _) => true
  | _ => false
  end.

(** The [tool_result] entry built from a dispatch, returned or raised. *)
Definition tool_result_of (id : string) (outcome : Result string)
  : ToolResult :=
  match outcome with
  | Ok tool_result => tool_result_ok id tool_result
  | Err e => tool_result_failed id e
  end.

(** What the handler of the loop's [except Exception] makes of [e] in an
    iteration entered with [round_count = n]. *)
Definition handled (n : nat) (e : Exception) : Result Control :=
  if Nat.eqb n 0 then Err e else Ok (Return (round_error n e)).

(** The exchange recorded by the inference call of an iteration. *)
Definition loop_call (system_content : string)
  (tool_catalog : option (list ToolDef)) (v : Locals) (h : Trace) : Call :=
  ApiCall (round_info_of (round_count v))
    (loop_params system_content tool_catalog (conversation v))
    (messages_create self h
       (loop_params system_content tool_catalog (conversation v))).

(** The exchange recorded by the call after the loop. *)
Definition final_call (system_content : string) (msgs : list Message)
  (h : Trace) : Call :=
  ApiCall "Final" (final_params system_content msgs)
    (messages_create self h (final_params system_content msgs)).

(** The locals after a tool round that answered [response] with
    [tool_results]. *)
Definition after_round (v : Locals) (response : Response)
  (tool_results : list ToolResult) : Locals :=
  {| round_count := round_count v + 1;
     conversation :=
       match tool_results with
       | [] => (conversation v ++ [assistant_message response])%list
       | _ :: _ =>
           ((conversation v ++ [assistant_message response])
              ++ [tool_results_message tool_results])%list
       end |}.

(** The text the code after the loop returns for the outcome of its call. *)
Definition final_text (outcome : Result Response) : string :=
  match outcome with
  | Ok final_response =>
      match first_block_text final_response with
      | Ok text => text
      | Err e => final_error e
      end
  | Err e => final_error e
  end.

(** The code that follows the loop, applied to what the loop produced. *)
Definition finish (system_content : string)
  (looped : option (Result LoopExit * Trace)) : option (Result string * Trace) :=
  match looped with
  | None => None
  | Some (Ok (Returned text), h) => Some (Ok text, h)
  | Some (Ok (FellThrough v), h) => final_synthesis system_content (conversation v) h
  | Some (Err e, h) => Some (Err e, h)
  end.

(** The first text block of a response, wherever it stands: the reading of
    "the first text block available". *)
Fixpoint first_text_block_available (blocks : list ContentBlock)
  : option string :=
  match blocks with
  | [] => None
  | TextBlock text :: _ => Some text
  | ToolUseBlock _ _ _ :: rest => first_text_block_available rest
  end.

(** [answered blocks calls results]: every [tool_use] block of [blocks],
    in order, was dispatched by one call of [calls] and answered by one
    entry of [results]; the other blocks were skipped. *)
Inductive answered :
  list ContentBlock -> list Call -> list ToolResult -> Prop :=
| answered_nil : answered [] [] []
| answered_text text blocks calls results :
    answered blocks calls results ->
    answered (TextBlock text :: blocks) calls results
| answered_tool id name input outcome blocks calls results :
    answered blocks calls results ->
    answered (ToolUseBlock id name input :: blocks)
             (ToolCall name input outcome :: calls)
             (tool_result_of id outcome :: results).

(** [rounds k v h v' h']: starting the loop with locals [v] and history
    [h], [k] iterations run to their [continue] and leave [v'] and [h']. *)
Inductive rounds (system_content : string)
  (tool_catalog : option (list ToolDef)) (tool_manager : option ToolManager)
  : nat -> Locals -> Trace -> Locals -> Trace -> Prop :=
| rounds_O v h : rounds system_content tool_catalog tool_manager 0 v h v h
| rounds_S k v h v1 h1 v2 h2 :
    round_count v < max_rounds ->
    loop_body system_content tool_catalog tool_manager v h
      = Some (Ok (Continue v1), h1) ->
    rounds system_content tool_catalog tool_manager k v1 h1 v2 h2 ->
    rounds system_content tool_catalog tool_manager (S k) v h v2 h2.

(** ** The dispatch loop of one round *)

Lemma execute_tool_blocks_answered (manager : ToolManager)
  (blocks : list ContentBlock) :
  forall (acc : list ToolResult) (failed : bool) (h : Trace),
  exists calls results,
    answered blocks calls results /\
    execute_tool_blocks manager blocks acc failed h
    = Some (Ok ((acc ++ results)%list, failed || existsb call_failed calls),
            (h ++ calls)%list).
Proof.
  induction blocks as [|b blocks IH]; intros acc failed h.
  - exists [], []. split; [constructor|].
    cbn. now rewrite !app_nil_r, orb_false_r.
  - destruct b as [text|id name input].
    + destruct (IH acc failed h) as (calls & results & Hans & Heq).
      exists calls, results. split; [now constructor|exact Heq].
    + cbn [execute_tool_blocks].
      unfold bind, attempt, call_execute_tool.
      set (outcome := execute_tool manager h name input).
      destruct outcome as [tool_result|e] eqn:Hout.
      * destruct (IH (acc ++ [tool_result_ok id tool_result])%list failed
                    (h ++ [ToolCall name input (Ok tool_result)])%list)
          as (calls & results & Hans & Heq).
        exists (ToolCall name input (Ok tool_result) :: calls),
               (tool_result_of id (Ok tool_result) :: results).
        split; [now constructor|].
        rewrite Heq. cbn. now rewrite <- !app_assoc.
      * destruct (IH (acc ++ [tool_result_failed id e])%list true
                    (h ++ [ToolCall name input (Err e)])%list)
          as (calls & results & Hans & Heq).
        exists (ToolCall name input (Err e) :: calls),
               (tool_result_of id (Err e) :: results).
        split; [now constructor|].
        rewrite Heq. cbn. rewrite <- !app_assoc. cbn.
        now rewrite orb_true_r.
Qed.

(** Each [tool_use] block, in order, has its own result entry, carrying the
    block's identifier. *)
Lemma answered_results blocks calls results :
  answered blocks calls results ->
  Forall2 (fun b r => exists id name input outcome,
             b = ToolUseBlock id name input /\
             r = tool_result_of id outcome /\
             tool_use_id r = id)
          (filter is_tool_use blocks) results.
Proof.
  induction 1 as [|text blocks calls results _ IH
                  |id name input outcome blocks calls results _ IH]; cbn.
  - constructor.
  - exact IH.
  - constructor; [|exact IH].
    exists id, name, input, outcome. repeat split.
    now destruct outcome.
Qed.

(** Each [tool_use] block, in order, is dispatched once, under its name and
    with its arguments. *)
Lemma answered_calls blocks calls results :
  answered blocks calls results ->
  Forall2 (fun b c => exists id name input outcome,
             b = ToolUseBlock id name input /\
             c = ToolCall name input outcome)
          (filter is_tool_use blocks) calls.
Proof.
  induction 1 as [|text blocks calls results _ IH
                  |id name input outcome blocks calls results _ IH]; cbn.
  - constructor.
  - exact IH.
  - constructor; [|exact IH]. now exists id, name, input, outcome.
Qed.


Lemma answered_only_tool_calls blocks calls results :
  answered blocks calls results -> filter is_api_call calls = [].
Proof.
  induction 1; cbn; auto.
Qed.


Lemma answered_without_tool_use blocks calls results :
  answered blocks calls results ->
  filter is_tool_use blocks = [] ->
  calls = [] /\ results = [].
Proof.
  induction 1 as [|? ? ? ? _ IH|]; cbn; intros Hnone.
  - now split.
  - now apply IH.
  - discriminate.
Qed.

Lemma answered_failure calls :
  existsb call_failed calls = true <->
  exists name input e, In (ToolCall name input (Err e)) calls.
Proof.
  rewrite existsb_exists. split.
  - intros (c & Hin & Hc).
    destruct c as [? ? ?|name input [?|e]]; try discriminate.
    now exists name, input, e.
  - intros (name & input & e & Hin).
    now exists (ToolCall name input (Err e)).
Qed.

(** One dispatch of a round, for stating what a round did: the identifier,
    name and arguments of the [tool_use] block, and what the tool manager
    returned or raised for it. *)
Record Dispatch : Type := mkDispatch {
  dispatch_id : string;
  dispatch_name : string;
  dispatch_input : ToolInput;
  dispatch_outcome : Result string
}.

(** The blocks dispatched, the calls made and the entries collected are
    three readings of one list of dispatches. *)
Lemma answered_dispatched blocks calls results :
  answered blocks calls results ->
  exists ds : list Dispatch,
    filter is_tool_use blocks
    = map (fun d => ToolUseBlock (dispatch_id d) (dispatch_name d)
                      (dispatch_input d)) ds /\
    calls
    = map (fun d => ToolCall (dispatch_name d) (dispatch_input d)
                      (dispatch_outcome d)) ds /\
    results
    = map (fun d =>
             {| result_type := "tool_result";
                tool_use_id := dispatch_id d;
                result_content :=
                  match dispatch_outcome d with
                  | Ok tool_result => tool_result
                  | Err e => "Tool execution failed: " ++ str e
                  end |}) ds.
Proof.
  induction 1 as [|text blocks calls results _ IH
                  |id name input outcome blocks calls results _ IH].
  - exists []. now repeat split.
  - exact IH.
  - destruct IH as (ds & Hblocks & Hcalls & Hresults).
    exists ({| dispatch_id := id; dispatch_name := name;
               dispatch_input := input; dispatch_outcome := outcome |} :: ds).
    cbn. rewrite Hblocks, Hcalls, Hresults.
    repeat split. now destruct outcome.
Qed.

(** ** One iteration of the loop *)

Section Iteration.

Variable system_content : string.
Variable tool_catalog : option (list ToolDef).
Variable tool_manager : option ToolManager.

Local Abbreviation body := (loop_body system_content tool_catalog tool_manager).
Local Abbreviation params := (loop_params system_content tool_catalog).
Local Abbreviation recorded := (loop_call system_content tool_catalog).

Lemma loop_body_api_error v h e :
  messages_create self h (params (conversation v)) = Err e ->
  body v h = Some (handled (round_count v) e, (h ++ [recorded v h])%list).
Proof.
  intros Hcall.
  unfold loop_body, try_except, bind, call_anthropic_api, loop_call, handled.
  rewrite Hcall.
  now destruct (Nat.eqb (round_count v) 0).
Qed.

Lemma loop_body_terminal v h response :
  messages_create self h (params (conversation v)) = Ok response ->
  (stop_reason response =? "tool_use") = false \/ tool_manager = None ->
  body v h
  = Some (match first_block_text response with
          | Ok text => Ok (Return text)
          | Err e => handled (round_count v) e
          end, (h ++ [recorded v h])%list).
Proof.
  intros Hcall Hterm.
  unfold loop_body, try_except, bind, call_anthropic_api, loop_call, handled.
  rewrite Hcall.
  assert (Hnone : (if stop_reason response =? "tool_use"
                   then tool_manager else None) = None).
  { destruct Hterm as [Hstop|Hmgr].
    - now rewrite Hstop.
    - rewrite Hmgr. now destruct (stop_reason response =? "tool_use"). }
  rewrite Hnone. unfold lift, ret, raise.
  destruct (first_block_text response) as [text|e']; [reflexivity|].
  now destruct (Nat.eqb (round_count v) 0).
Qed.

Lemma loop_body_tool_round v h response manager :
  messages_create self h (params (conversation v)) = Ok response ->
  stop_reason response = "tool_use" ->
  tool_manager = Some manager ->
  exists calls results,
    answered (content response) calls results /\
    execute_tool_blocks manager (content response) [] false
      (h ++ [recorded v h])%list
    = Some (Ok (results, existsb call_failed calls),
            ((h ++ [recorded v h]) ++ calls)%list) /\
    body v h
    = Some (Ok ((if existsb call_failed calls then Break else Continue)
                  (after_round v response results)),
            ((h ++ [recorded v h]) ++ calls)%list).
Proof.
  intros Hcall Hstop Hmgr.
  destruct (execute_tool_blocks_answered manager (content response) [] false
              (h ++ [recorded v h])%list)
    as (calls & results & Hans & Hexec).
  cbn in Hexec.
  exists calls, results. split; [exact Hans|]. split; [exact Hexec|].
  unfold loop_body, try_except, bind, call_anthropic_api.
  rewrite Hcall, Hstop, Hmgr. cbn [String.eqb Ascii.eqb Bool.eqb].
  unfold loop_call in Hexec. rewrite Hcall in Hexec. rewrite Hexec.
  unfold loop_call, after_round, ret. rewrite Hcall. cbn [fst snd].
  destruct (existsb call_failed calls); destruct results; reflexivity.
Qed.

(** The three ways an iteration can go. *)
Inductive iteration (v : Locals) (h : Trace)
  : Result Control -> Trace -> Prop :=
| iteration_api_error e :
    messages_create self h (params (conversation v)) = Err e ->
    iteration v h (handled (round_count v) e) (h ++ [recorded v h])%list
| iteration_terminal response :
    messages_create self h (params (conversation v)) = Ok response ->
    (stop_reason response =? "tool_use") = false \/ tool_manager = None ->
    iteration v h
      (match first_block_text response with
       | Ok text => Ok (Return text)
       | Err e => handled (round_count v) e
       end)
      (h ++ [recorded v h])%list
| iteration_tool_round response manager calls results :
    messages_create self h (params (conversation v)) = Ok response ->
    stop_reason response = "tool_use" ->
    tool_manager = Some manager ->
    answered (content response) calls results ->
    iteration v h
      (Ok ((if existsb call_failed calls then Break else Continue)
             (after_round v response results)))
      ((h ++ [recorded v h]) ++ calls)%list.

Lemma loop_body_iteration v h :
  exists step h', body v h = Some (step, h') /\ iteration v h step h'.
Proof.
  assert (Hm : tool_manager = None \/
               exists manager, tool_manager = Some manager).
  { destruct tool_manager as [manager|]; [right; now exists manager|now left]. }
  destruct (messages_create self h (params (conversation v)))
    as [response|e] eqn:Hcall.
  - destruct (stop_reason response =? "tool_use") eqn:Hstop.
    + destruct Hm as [Hnone|(manager & Hmgr)].
      * eexists _, _. split.
        { apply (loop_body_terminal v h _ Hcall). now right. }
        apply iteration_terminal; [exact Hcall|now right].
      * apply String.eqb_eq in Hstop.
        destruct (loop_body_tool_round v h _ _ Hcall Hstop Hmgr)
          as (calls & results & Hans & _ & Hbody).
        eexists _, _. split; [exact Hbody|].
        now apply iteration_tool_round with (manager := manager).
    + eexists _, _. split.
      { apply (loop_body_terminal v h _ Hcall). now left. }
      apply iteration_terminal; [exact Hcall|now left].
  - eexists _, _. split; [exact (loop_body_api_error v h _ Hcall)|].
    now apply iteration_api_error.
Qed.

Lemma body_iteration v h step h' :
  body v h = Some (step, h') -> iteration v h step h'.
Proof.
  intros Hbody.
  destruct (loop_body_iteration v h) as (step0 & h0 & Heq & Hit).
  rewrite Heq in Hbody. now inversion Hbody; subst.
Qed.

(** An iteration that goes on, or breaks, has counted a round. *)
Lemma iteration_counts v h step h' :
  iteration v h step h' ->
  forall v', step = Ok (Continue v') \/ step = Ok (Break v') ->
             round_count v' = round_count v + 1.
Proof.
  intros Hit v' Hv'. destruct Hit as [e _|response _ _|response ? calls ? _ _ _ _].
  - unfold handled in Hv'.
    destruct (Nat.eqb (round_count v) 0); destruct Hv'; discriminate.
  - unfold handled in Hv'.
    destruct (first_block_text response);
      destruct (Nat.eqb (round_count v) 0); destruct Hv'; discriminate.
  - destruct (existsb call_failed calls);
      destruct Hv' as [Hv'|Hv']; inversion Hv'; reflexivity.
Qed.

(** An iteration records its inference call first and only dispatches
    after it. *)
Lemma iteration_history v h step h' :
  iteration v h step h' ->
  exists calls,
    h' = ((h ++ [recorded v h]) ++ calls)%list /\
    filter is_api_call calls = [].
Proof.
  intros [e _|response _ _|response ? calls results _ _ _ Hans].
  - exists []. now rewrite app_nil_r.
  - exists []. now rewrite app_nil_r.
  - exists calls. split; [reflexivity|].
    exact (answered_only_tool_calls _ _ _ Hans).
Qed.

(** ** The loop *)

Local Abbreviation loop := (while_loop system_content tool_catalog tool_manager).
Local Abbreviation completed := (rounds system_content tool_catalog tool_manager).

Definition call_system_is (s : string) (c : Call) : Prop :=
  match c with
  | ApiCall _ api_params _ => system api_params = s
  | ToolCall _ _ _ => True
  end.

Lemma while_loop_done fuel v h :
  max_rounds <= round_count v ->
  loop fuel v h = Some (Ok (FellThrough v), h).
Proof.
  intros Hge. destruct fuel; cbn [while_loop];
    now rewrite (proj2 (Nat.ltb_ge _ _) Hge).
Qed.

Lemma while_loop_step fuel v h :
  round_count v < max_rounds ->
  loop (S fuel) v h
  = match body v h with
    | None => None
    | Some (Ok (Continue v'), h') => loop fuel v' h'
    | Some (Ok (Break v'), h') => Some (Ok (FellThrough v'), h')
    | Some (Ok (Return text), h') => Some (Ok (Returned text), h')
    | Some (Err e, h') => Some (Err e, h')
    end.
Proof.
  intros Hlt. cbn [while_loop].
  rewrite (proj2 (Nat.ltb_lt _ _) Hlt). unfold bind.
  destruct (body v h) as [[[[v'|v'|text]|e] h']|]; reflexivity.
Qed.

(** With [max_rounds - round_count] iterations allowed the loop ends. *)
Lemma while_loop_total fuel :
  forall v h,
    max_rounds <= round_count v + fuel ->
    exists exit h', loop fuel v h = Some (exit, h').
Proof.
  induction fuel as [|fuel IH]; intros v h Hfuel.
  - eexists _, _. apply while_loop_done. lia.
  - destruct (Nat.lt_ge_cases (round_count v) max_rounds) as [Hlt|Hge].
    + rewrite (while_loop_step fuel v h Hlt).
      destruct (loop_body_iteration v h) as (step & h1 & Hbody & Hit).
      rewrite Hbody.
      destruct step as [[v'|v'|text]|e]; try (eexists _, _; reflexivity).
      apply IH.
      rewrite (iteration_counts _ _ _ _ Hit v') by now left. lia.
    + eexists _, _. now apply while_loop_done.
Qed.

(** More fuel than needed changes nothing. *)
Lemma while_loop_fuel fuel :
  forall v h exit h',
    loop fuel v h = Some (exit, h') ->
    forall more, loop (fuel + more) v h = Some (exit, h').
Proof.
  induction fuel as [|fuel IH]; intros v h exit h' Hrun more.
  - destruct (Nat.lt_ge_cases (round_count v) max_rounds) as [Hlt|Hge].
    + cbn [while_loop] in Hrun.
      rewrite (proj2 (Nat.ltb_lt _ _) Hlt) in Hrun. discriminate.
    + rewrite (while_loop_done 0 v h Hge) in Hrun.
      now rewrite (while_loop_done _ v h Hge).
  - destruct (Nat.lt_ge_cases (round_count v) max_rounds) as [Hlt|Hge].
    + cbn [Nat.add]. rewrite (while_loop_step _ v h Hlt).
      rewrite (while_loop_step _ v h Hlt) in Hrun.
      destruct (body v h) as [[[[v'|v'|text]|e] h1]|]; try exact Hrun.
      now apply IH.
    + rewrite (while_loop_done _ v h Hge) in Hrun.
      now rewrite (while_loop_done _ v h Hge).
Qed.

(** Completed rounds are a prefix of the loop's run. *)
Lemma rounds_while k v h v' h' :
  completed k v h v' h' ->
  forall fuel, loop (k + fuel) v h = loop fuel v' h'.
Proof.
  induction 1 as [|k v h v1 h1 v2 h2 Hlt Hbody _ IH]; intros fuel.
  - reflexivity.
  - cbn [Nat.add]. rewrite (while_loop_step _ v h Hlt), Hbody. apply IH.
Qed.

Lemma api_call_count_app (a b : Trace) :
  api_call_count (a ++ b)%list = api_call_count a + api_call_count b.
Proof.
  unfold api_call_count. now rewrite filter_app, length_app.
Qed.

Lemma recorded_system v h : call_system_is system_content (recorded v h).
Proof.
  unfold loop_call, call_system_is, loop_params, base_with.
  now destruct (truthy_list tool_catalog).
Qed.

Lemma tool_calls_system (s : string) (calls : Trace) :
  filter is_api_call calls = [] -> Forall (call_system_is s) calls.
Proof.
  induction calls as [|c calls IH]; intros Hnone; [constructor|].
  destruct c; cbn in Hnone; [discriminate|].
  constructor; [exact I|now apply IH].
Qed.

(** What one iteration adds to the history. *)
Lemma iteration_added v h step h' :
  iteration v h step h' ->
  exists added,
    h' = (h ++ added)%list /\
    api_call_count added = 1 /\
    Forall (call_system_is system_content) added.
Proof.
  intros Hit. destruct (iteration_history _ _ _ _ Hit) as (tcs & Hh & Htcs).
  exists (recorded v h :: tcs). split; [|split].
  - rewrite Hh. now rewrite <- app_assoc.
  - unfold api_call_count. cbn. now rewrite Htcs.
  - constructor; [apply recorded_system|now apply tool_calls_system].
Qed.

(** The counter counts the completed rounds and stays within the budget;
    each round made one inference call. *)
Lemma rounds_invariant k v h v' h' :
  completed k v h v' h' ->
  round_count v' = round_count v + k /\
  (0 < k -> round_count v' <= max_rounds) /\
  exists calls,
    h' = (h ++ calls)%list /\
    api_call_count calls = k /\
    Forall (call_system_is system_content) calls.
Proof.
  induction 1 as [|k v h v1 h1 v2 h2 Hlt Hbody _ IH].
  - split; [lia|]. split; [lia|].
    exists []. rewrite app_nil_r. repeat split. constructor.
  - pose proof (body_iteration _ _ _ _ Hbody) as Hit.
    pose proof (iteration_counts _ _ _ _ Hit v1 (or_introl eq_refl)) as Hcount.
    destruct (iteration_added _ _ _ _ Hit) as (added & Hh1 & Hone & Hadded).
    destruct IH as (Hrc & Hle & calls & Hh2 & Hn & Hsys).
    split; [lia|]. split.
    + intros _. destruct k as [|k]; [|apply Hle; lia].
      rewrite Hrc, Hcount. lia.
    + exists (added ++ calls)%list.
      split; [|split].
      * rewrite Hh2, Hh1. now rewrite <- app_assoc.
      * rewrite api_call_count_app. lia.
      * now apply Forall_app.
Qed.

(** What the whole loop adds to the history, and where it leaves the
    counter when it falls through. *)
Lemma while_loop_history fuel :
  forall v h exit h',
    loop fuel v h = Some (exit, h') ->
    exists calls,
      h' = (h ++ calls)%list /\
      Forall (call_system_is system_content) calls /\
      api_call_count calls <= max_rounds - round_count v /\
      (forall v', exit = Ok (FellThrough v') ->
                  round_count v' = round_count v + api_call_count calls).
Proof.
  induction fuel as [|fuel IH]; intros v h exit h' Hrun.
  - destruct (Nat.lt_ge_cases (round_count v) max_rounds) as [Hlt|Hge].
    + cbn [while_loop] in Hrun.
      rewrite (proj2 (Nat.ltb_lt _ _) Hlt) in Hrun. discriminate.
    + rewrite (while_loop_done 0 v h Hge) in Hrun. inversion Hrun; subst.
      exists []. rewrite app_nil_r. repeat split; [constructor|cbn; lia|].
      intros v' Hv'. inversion Hv'; subst. cbn. lia.
  - destruct (Nat.lt_ge_cases (round_count v) max_rounds) as [Hlt|Hge].
    + rewrite (while_loop_step _ v h Hlt) in Hrun.
      destruct (loop_body_iteration v h) as (step & h1 & Hbody & Hit).
      rewrite Hbody in Hrun.
      destruct (iteration_added _ _ _ _ Hit) as (added & Hh1 & Hone & Hadded).
      destruct step as [[v1|v1|text]|e].
      * pose proof (iteration_counts _ _ _ _ Hit v1 (or_introl eq_refl))
          as Hcount.
        destruct (IH _ _ _ _ Hrun) as (calls & Hh' & Hsys & Hle & Hexit).
        exists (added ++ calls)%list. rewrite api_call_count_app.
        split; [rewrite Hh', Hh1; now rewrite <- app_assoc|].
        split; [now apply Forall_app|]. split; [lia|].
        intros v' Hv'. rewrite (Hexit v' Hv'). lia.
      * pose proof (iteration_counts _ _ _ _ Hit v1 (or_intror eq_refl))
          as Hcount.
        inversion Hrun; subst. exists added.
        repeat split; [exact Hadded|lia|].
        intros v' Hv'. inversion Hv'; subst. lia.
      * inversion Hrun; subst. exists added.
        repeat split; [exact Hadded|lia|]. intros v' Hv'. discriminate.
      * inversion Hrun; subst. exists added.
        repeat split; [exact Hadded|lia|]. intros v' Hv'. discriminate.
    + rewrite (while_loop_done _ v h Hge) in Hrun. inversion Hrun; subst.
      exists []. rewrite app_nil_r. repeat split; [constructor|cbn; lia|].
      intros v' Hv'. inversion Hv'; subst. cbn. lia.
Qed.

(** ** The call after the loop *)

Lemma final_synthesis_run (msgs : list Message) (h : Trace) :
  final_synthesis system_content msgs h
  = Some (Ok (final_text
                (messages_create self h (final_params system_content msgs))),
          (h ++ [final_call system_content msgs h])%list).
Proof.
  unfold final_synthesis, try_except, bind, call_anthropic_api, lift, ret,
    final_call, final_text.
  destruct (messages_create self h (final_params system_content msgs))
    as [final_response|e]; [|reflexivity].
  now destruct (first_block_text final_response).
Qed.

End Iteration.

(** ** The whole method *)

Section Invocation.

Variable query : string.
Variable conversation_history : option string.
Variable tool_catalog : option (list ToolDef).
Variable tool_manager : option ToolManager.

Local Abbreviation sc := (system_content_of conversation_history).
Local Abbreviation generate :=
  (generate_response query conversation_history tool_catalog tool_manager).
Local Abbreviation loop := (while_loop sc tool_catalog tool_manager).
Local Abbreviation body := (loop_body sc tool_catalog tool_manager).
Local Abbreviation params := (loop_params sc tool_catalog).
Local Abbreviation recorded := (loop_call sc tool_catalog).
Local Abbreviation completed := (rounds sc tool_catalog tool_manager).
Local Abbreviation start := (initial_locals query).

Lemma generate_response_finish (h : Trace) :
  generate h = finish sc (loop max_rounds start h).
Proof.
  unfold generate_response, generate_response_fuel, run_rounds, bind, finish, ret.
  destruct (loop max_rounds start h) as [[[[text|v]|e] h']|]; reflexivity.
Qed.

(** After [k] completed rounds the method goes on from the state they left. *)
Lemma generate_response_after (h : Trace) k v hk :
  completed k start h v hk ->
  generate h = finish sc (loop (max_rounds - k) v hk).
Proof.
  intros Hk.
  destruct (rounds_invariant _ _ _ _ _ _ _ _ Hk) as (Hrc & Hle & _).
  assert (Hbound : k <= max_rounds).
  { destruct k as [|k]; [lia|]. cbn in Hrc. rewrite <- Hrc. apply Hle. lia. }
  rewrite generate_response_finish.
  replace max_rounds with (k + (max_rounds - k)) at 1 by lia.
  now rewrite (rounds_while _ _ _ _ _ _ _ _ Hk).
Qed.

(** The method always ends, by returning or by raising; its first exchange
    is the initial inference call, and at most [max_rounds] inference calls
    follow it. *)
Lemma generate_response_run (h : Trace) :
  exists outcome rest,
    generate h = Some (outcome, (h ++ recorded start h :: rest)%list) /\
    Forall (call_system_is sc) (recorded start h :: rest) /\
    api_call_count rest <= max_rounds.
Proof.
  rewrite generate_response_finish.
  assert (Hlt : round_count start < max_rounds) by (cbn; unfold max_rounds; lia).
  destruct (while_loop_total sc tool_catalog tool_manager max_rounds start h)
    as (exit & h1 & Hloop); [lia|].
  pose proof Hloop as Hrun. rewrite Hloop.
  change max_rounds with (S 1) in Hrun at 1.
  rewrite (while_loop_step _ _ _ _ _ _ Hlt) in Hrun.
  destruct (loop_body_iteration sc tool_catalog tool_manager start h)
    as (step & h0 & Hbody & Hit).
  rewrite Hbody in Hrun.
  destruct (iteration_history _ _ _ _ _ _ _ Hit) as (tcs & Hh0 & Htcs).
  pose proof (recorded_system sc tool_catalog start h) as Hfirst.
  pose proof (tool_calls_system sc _ Htcs) as Htools.
  assert (Htcs0 : api_call_count tcs = 0)
    by (unfold api_call_count; now rewrite Htcs).
  destruct step as [[v1|v1|text]|e].
  - destruct (while_loop_history _ _ _ _ _ _ _ _ Hrun)
      as (calls & Hh1 & Hsys & Hcount & _).
    assert (Hh1' : h1 = (h ++ recorded start h :: tcs ++ calls)%list).
    { rewrite Hh1, Hh0. rewrite <- !app_assoc. reflexivity. }
    pose proof (iteration_counts _ _ _ _ _ _ _ Hit v1 (or_introl eq_refl))
      as Hv1. cbn in Hv1.
    destruct exit as [[text|v]|e]; cbn [finish].
    + exists (Ok text), (tcs ++ calls)%list. rewrite Hh1'.
      split; [reflexivity|]. split.
      * constructor; [exact Hfirst|now apply Forall_app].
      * rewrite api_call_count_app. unfold max_rounds in *. lia.
    + rewrite final_synthesis_run.
      exists (Ok (final_text
                    (messages_create self h1 (final_params sc (conversation v))))),
             ((tcs ++ calls) ++ [final_call sc (conversation v) h1])%list.
      split.
      * rewrite Hh1' at 2. rewrite <- app_assoc. reflexivity.
      * split.
        -- constructor; [exact Hfirst|]. rewrite !Forall_app.
           repeat split; try assumption.
           constructor; [reflexivity|constructor].
        -- rewrite !api_call_count_app. unfold max_rounds in *. cbn. lia.
    + exists (Err e), (tcs ++ calls)%list. rewrite Hh1'.
      split; [reflexivity|]. split.
      * constructor; [exact Hfirst|now apply Forall_app].
      * rewrite api_call_count_app. unfold max_rounds in *. lia.
  - inversion Hrun; subst exit h1. cbn [finish].
    rewrite final_synthesis_run.
    exists (Ok (final_text
                  (messages_create self h0 (final_params sc (conversation v1))))),
           (tcs ++ [final_call sc (conversation v1) h0])%list.
    split.
    + rewrite Hh0 at 2. rewrite <- !app_assoc. reflexivity.
    + split.
      * constructor; [exact Hfirst|]. rewrite Forall_app. split; [assumption|].
        constructor; [reflexivity|constructor].
      * rewrite api_call_count_app. unfold max_rounds. cbn. lia.
  - inversion Hrun; subst exit h1. cbn [finish].
    exists (Ok text), tcs. rewrite Hh0. split.
    + now rewrite <- app_assoc.
    + split; [now constructor|unfold max_rounds; lia].
  - inversion Hrun; subst exit h1. cbn [finish].
    exists (Err e), tcs. rewrite Hh0. split.
    + now rewrite <- app_assoc.
    + split; [now constructor|unfold max_rounds; lia].
Qed.

(** The method is total: it returns a text or raises. *)
Corollary generate_response_total (h : Trace) :
  exists outcome h', generate h = Some (outcome, h').
Proof.
  destruct (generate_response_run h) as (outcome & rest & Hgen & _).
  eexists _, _. exact Hgen.
Qed.

(** Allowing the loop more than [max_rounds] iterations changes nothing. *)
Corollary generate_response_fuel_enough (more : nat) (h : Trace) :
  generate_response_fuel (max_rounds + more) query conversation_history
    tool_catalog tool_manager h
  = generate h.
Proof.
  unfold generate_response, generate_response_fuel, run_rounds, bind.
  destruct (while_loop_total sc tool_catalog tool_manager max_rounds start h)
    as (exit & h' & Hloop); [cbn; lia|].
  now rewrite (while_loop_fuel _ _ _ _ _ _ _ _ Hloop more), Hloop.
Qed.

(** The method from the state left by [k] completed rounds, when the
    budget allows another iteration. *)
Lemma generate_response_next (h : Trace) k v hk :
  completed k start h v hk ->
  round_count v < max_rounds ->
  generate h
  = finish sc
      match body v hk with
      | None => None
      | Some (Ok (Continue v'), h') => loop (max_rounds - S k) v' h'
      | Some (Ok (Break v'), h') => Some (Ok (FellThrough v'), h')
      | Some (Ok (Return text), h') => Some (Ok (Returned text), h')
      | Some (Err e, h') => Some (Err e, h')
      end.
Proof.
  intros Hk Hlt.
  destruct (rounds_invariant _ _ _ _ _ _ _ _ Hk) as (Hrc & _ & _).
  cbn in Hrc. rewrite (generate_response_after h _ _ _ Hk).
  replace (max_rounds - k) with (S (max_rounds - S k)) by lia.
  now rewrite (while_loop_step _ _ _ _ _ _ Hlt).
Qed.

(** A first response that ends the exchange: one inference call, and the
    outcome of reading [content[0].text]. *)
Lemma generate_response_terminal (h : Trace) (response : Response) :
  messages_create self h (params [user_message query]) = Ok response ->
  (stop_reason response =? "tool_use") = false \/ tool_manager = None ->
  generate h
  = Some (first_block_text response,
          (h ++ [ApiCall "Initial" (params [user_message query])
                   (Ok response)])%list).
Proof.
  intros Hcall Hterm.
  assert (Hlt : round_count start < max_rounds) by (cbn; unfold max_rounds; lia).
  rewrite (generate_response_next h _ _ _ (rounds_O _ _ _ start h) Hlt).
  rewrite (loop_body_terminal sc tool_catalog tool_manager start h response
             Hcall Hterm).
  unfold loop_call. cbn [conversation round_count initial_locals].
  rewrite Hcall.
  now destruct (first_block_text response).
Qed.

(** C5, as the code has it.  When the first inference response does not
    signal tool use, whatever [tools] and [tool_manager] are, the method
    makes exactly one inference call and no dispatch, and its outcome is
    that of reading the text of the response's first content block: that
    text, unchanged, when the block is a text block. *)
Theorem no_tool_use_single_call (h : Trace) (response : Response) :
  messages_create self h (params [user_message query]) = Ok response ->
  stop_reason response <> "tool_use" ->
  exists h',
    generate h = Some (first_block_text response, h') /\
    h' = (h ++ [ApiCall "Initial" (params [user_message query])
                  (Ok response)])%list /\
    api_call_count h' = api_call_count h + 1 /\
    tool_call_count h' = tool_call_count h /\
    (forall text rest,
        content response = TextBlock text :: rest ->
        generate h = Some (Ok text, h')).
Proof.
  intros Hcall Hstop.
  apply String.eqb_neq in Hstop.
  pose proof (generate_response_terminal h response Hcall (or_introl Hstop))
    as Hrun.
  eexists. split; [exact Hrun|]. split; [reflexivity|].
  split; [|split].
  - rewrite api_call_count_app. reflexivity.
  - unfold tool_call_count. rewrite filter_app, length_app. cbn. lia.
  - intros text rest Hcontent. rewrite Hrun.
    unfold first_block_text. now rewrite Hcontent.
Qed.

(** C6, as the code has it.  When the first inference response signals
    tool use and no tool manager was supplied, the response ends the
    exchange: no tool is dispatched, no further inference call is made, and
    the outcome is that of reading the text of the first content block, so
    the text is returned when that block is a text block. *)
Theorem tool_use_without_manager (h : Trace) (response : Response) :
  tool_manager = None ->
  messages_create self h (params [user_message query]) = Ok response ->
  stop_reason response = "tool_use" ->
  exists h',
    generate h = Some (first_block_text response, h') /\
    h' = (h ++ [ApiCall "Initial" (params [user_message query])
                  (Ok response)])%list /\
    api_call_count h' = api_call_count h + 1 /\
    tool_call_count h' = tool_call_count h /\
    (forall text rest,
        content response = TextBlock text :: rest ->
        generate h = Some (Ok text, h')).
Proof.
  intros Hnone Hcall _.
  pose proof (generate_response_terminal h response Hcall (or_intror Hnone))
    as Hrun.
  eexists. split; [exact Hrun|]. split; [reflexivity|].
  split; [|split].
  - rewrite api_call_count_app. reflexivity.
  - unfold tool_call_count. rewrite filter_app, length_app. cbn. lia.
  - intros text rest Hcontent. rewrite Hrun.
    unfold first_block_text. now rewrite Hcontent.
Qed.

Lemma round_info_later k : 0 < k -> round_info_of k = "Round " ++ str_of_nat (k + 1).
Proof.
  intros Hk. unfold round_info_of. now rewrite (proj2 (Nat.ltb_lt _ _) Hk).
Qed.

Lemma handled_later k e :
  0 < k -> handled k e = Ok (Return (round_error k e)).
Proof.
  intros Hk. unfold handled.
  destruct (Nat.eqb_spec k 0) as [Hz|_]; [lia|reflexivity].
Qed.

(** C2.  A failure of the very first inference call is raised to the
    caller.  A failure of an inference call made after [k >= 1] completed
    tool rounds is not raised: the method returns the text
    [Error in round k+1: cause].  A failure of the call after the loop is
    not raised either: the method returns
    [Error generating final response: cause]. *)
Theorem inference_failure_policy (h : Trace) (e : Exception) :
  (messages_create self h (params [user_message query]) = Err e ->
   generate h
   = Some (Err e,
           (h ++ [ApiCall "Initial" (params [user_message query])
                    (Err e)])%list))
  /\
  (forall k v hk,
      0 < k ->
      completed k start h v hk ->
      round_count v < max_rounds ->
      messages_create self hk (params (conversation v)) = Err e ->
      generate h
      = Some (Ok ("Error in round " ++ str_of_nat (k + 1) ++ ": " ++ str e),
              (hk ++ [ApiCall ("Round " ++ str_of_nat (k + 1))
                        (params (conversation v)) (Err e)])%list))
  /\
  (forall v h1,
      loop max_rounds start h = Some (Ok (FellThrough v), h1) ->
      messages_create self h1 (final_params sc (conversation v)) = Err e ->
      generate h
      = Some (Ok ("Error generating final response: " ++ str e),
              (h1 ++ [ApiCall "Final" (final_params sc (conversation v))
                        (Err e)])%list)).
Proof.
  split; [|split].
  - intros Hcall.
    assert (Hlt : round_count start < max_rounds)
      by (cbn; unfold max_rounds; lia).
    rewrite (generate_response_next h _ _ _ (rounds_O _ _ _ start h) Hlt).
    rewrite (loop_body_api_error sc tool_catalog tool_manager start h e Hcall).
    unfold loop_call. cbn [conversation round_count initial_locals].
    now rewrite Hcall.
  - intros k v hk Hpos Hk Hlt Hcall.
    destruct (rounds_invariant _ _ _ _ _ _ _ _ Hk) as (Hrc & _ & _).
    cbn in Hrc.
    rewrite (generate_response_next h _ _ _ Hk Hlt).
    rewrite (loop_body_api_error sc tool_catalog tool_manager v hk e Hcall).
    unfold loop_call. rewrite Hcall, Hrc.
    rewrite (handled_later k e Hpos), (round_info_later k Hpos).
    reflexivity.
  - intros v h1 Hloop Hcall.
    rewrite generate_response_finish, Hloop. cbn [finish].
    rewrite final_synthesis_run. unfold final_call. now rewrite Hcall.
Qed.

(** C8.  Both paths that return the model's text read [content[0].text]
    with no test before it.  The read yields a text exactly when the
    content is non-empty and starts with a text block, and raises for every
    other response.  The return inside the loop and the return after the
    loop are this read: a fault of the first is handled by the loop's
    [except] clause, a fault of the second by the final one. *)
Theorem first_block_text_precondition (response : Response) :
  (forall text,
      first_block_text response = Ok text <->
      exists rest, content response = TextBlock text :: rest)
  /\
  ((forall text rest, content response <> TextBlock text :: rest) ->
   exists e, first_block_text response = Err e)
  /\
  (forall v h,
      messages_create self h (params (conversation v)) = Ok response ->
      (stop_reason response =? "tool_use") = false \/ tool_manager = None ->
      body v h
      = Some (match first_block_text response with
              | Ok text => Ok (Return text)
              | Err e => if Nat.eqb (round_count v) 0 then Err e
                         else Ok (Return (round_error (round_count v) e))
              end, (h ++ [recorded v h])%list))
  /\
  (forall msgs h,
      messages_create self h (final_params sc msgs) = Ok response ->
      final_synthesis sc msgs h
      = Some (Ok (match first_block_text response with
                  | Ok text => text
                  | Err e => final_error e
                  end),
              (h ++ [ApiCall "Final" (final_params sc msgs)
                       (Ok response)])%list)).
Proof.
  split; [|split; [|split]].
  - intros text. unfold first_block_text. split.
    + destruct (content response) as [|[text'|id name input] rest];
        intros Hread; inversion Hread; subst. now exists rest.
    + intros (rest & Hcontent). now rewrite Hcontent.
  - intros Hnot. unfold first_block_text.
    destruct (content response) as [|[text'|id name input] rest].
    + now eexists.
    + now destruct (Hnot text' rest).
    + now eexists.
  - intros v h Hcall Hterm.
    exact (loop_body_terminal sc tool_catalog tool_manager v h response
             Hcall Hterm).
  - intros msgs h Hcall.
    rewrite final_synthesis_run. unfold final_call, final_text.
    now rewrite Hcall.
Qed.

Lemma tool_call_count_app (a b : Trace) :
  tool_call_count (a ++ b)%list = tool_call_count a + tool_call_count b.
Proof.
  unfold tool_call_count. now rewrite filter_app, length_app.
Qed.

(** C1.  With a tool catalog supplied, every inference call of the loop
    carries the catalog.  After [k] completed tool rounds the round counter
    is [k], [k] is at most 2, and [k] inference calls were made.  Whenever
    the loop is left without a return the counter is at most 2 and exactly
    one more inference call follows, on the accumulated messages and the
    same system content, without the catalog.  After two completed rounds
    this is what happens, and the run has made exactly three inference
    calls. *)
Theorem round_budget (h : Trace) :
  truthy_list tool_catalog = true ->
  (forall msgs,
      tools (params msgs) = tool_catalog /\
      tool_choice (params msgs) = Some {| choice_type := "auto" |})
  /\
  (forall k v hk,
      completed k start h v hk ->
      round_count v = k /\ k <= max_rounds /\
      api_call_count hk = api_call_count h + k)
  /\
  (forall v h1,
      loop max_rounds start h = Some (Ok (FellThrough v), h1) ->
      round_count v <= max_rounds /\
      api_call_count h1 = api_call_count h + round_count v /\
      exists outcome,
        outcome = messages_create self h1 (final_params sc (conversation v)) /\
        generate h
        = Some (Ok (final_text outcome),
                (h1 ++ [ApiCall "Final"
                          {| model := self_model self; temperature := 0;
                             max_tokens := 800;
                             messages := conversation v; system := sc;
                             tools := None; tool_choice := None |}
                          outcome])%list))
  /\
  (forall v h2,
      completed max_rounds start h v h2 ->
      loop max_rounds start h = Some (Ok (FellThrough v), h2) /\
      exists outcome h3,
        outcome = messages_create self h2 (final_params sc (conversation v)) /\
        generate h = Some (Ok (final_text outcome), h3) /\
        h3 = (h2 ++ [ApiCall "Final"
                       {| model := self_model self; temperature := 0;
                          max_tokens := 800;
                          messages := conversation v; system := sc;
                          tools := None; tool_choice := None |}
                       outcome])%list /\
        api_call_count h3 = api_call_count h + 3).
Proof.
  intros Hcatalog.
  assert (Hrounds : forall k v hk,
             completed k start h v hk ->
             round_count v = k /\ k <= max_rounds /\
             api_call_count hk = api_call_count h + k).
  { intros k v hk Hk.
    destruct (rounds_invariant _ _ _ _ _ _ _ _ Hk)
      as (Hrc & Hle & calls & Hhk & Hn & _).
    cbn in Hrc. split; [exact Hrc|]. split.
    - destruct k as [|k]; [lia|]. rewrite <- Hrc. apply Hle. lia.
    - rewrite Hhk, api_call_count_app. lia. }
  assert (Hexit : forall v h1,
             loop max_rounds start h = Some (Ok (FellThrough v), h1) ->
             round_count v <= max_rounds /\
             api_call_count h1 = api_call_count h + round_count v /\
             exists outcome,
               outcome
               = messages_create self h1 (final_params sc (conversation v)) /\
               generate h
               = Some (Ok (final_text outcome),
                       (h1 ++ [ApiCall "Final"
                                 {| model := self_model self; temperature := 0;
                                    max_tokens := 800;
                                    messages := conversation v; system := sc;
                                    tools := None; tool_choice := None |}
                                 outcome])%list)).
  { intros v h1 Hloop.
    destruct (while_loop_history _ _ _ _ _ _ _ _ Hloop)
      as (calls & Hh1 & _ & Hle & Hfell).
    pose proof (Hfell v eq_refl) as Hrc. cbn in Hrc, Hle.
    split; [unfold max_rounds; lia|]. split.
    - rewrite Hh1, api_call_count_app. lia.
    - eexists. split; [reflexivity|].
      rewrite generate_response_finish, Hloop. cbn [finish].
      rewrite final_synthesis_run. reflexivity. }
  split; [|split; [exact Hrounds|split; [exact Hexit|]]].
  - intros msgs. unfold loop_params. rewrite Hcatalog. now split.
  - intros v h2 Hk.
    destruct (Hrounds _ _ _ Hk) as (Hrc & _ & Hcount).
    assert (Hloop : loop max_rounds start h = Some (Ok (FellThrough v), h2)).
    { replace max_rounds with (max_rounds + 0) at 1 by lia.
      rewrite (rounds_while _ _ _ _ _ _ _ _ Hk).
      apply while_loop_done. lia. }
    split; [exact Hloop|].
    destruct (Hexit _ _ Hloop) as (_ & _ & outcome & Hout & Hgen).
    eexists _, _. split; [exact Hout|].
    split; [exact Hgen|]. split; [reflexivity|].
    rewrite api_call_count_app, Hcount. unfold max_rounds. cbn. lia.
Qed.


(** After two completed rounds the loop condition fails and the call after
    the loop is made. *)
Lemma generate_response_exhausted (h : Trace) v h2 :
  completed max_rounds start h v h2 ->
  generate h
  = Some (Ok (final_text
                (messages_create self h2 (final_params sc (conversation v)))),
          (h2 ++ [final_call sc (conversation v) h2])%list).
Proof.
  intros Hk.
  destruct (rounds_invariant _ _ _ _ _ _ _ _ Hk) as (Hrc & _ & _).
  rewrite (generate_response_after h _ _ _ Hk).
  rewrite while_loop_done by (rewrite Hrc; lia).
  cbn [finish]. apply final_synthesis_run.
Qed.


Lemma params_messages (msgs : list Message) :
  messages (params msgs) = msgs /\ system (params msgs) = sc.
Proof.
  unfold loop_params, base_with. now destruct (truthy_list tool_catalog).
Qed.

(** C4.  In a tool round every [tool_use] block of the response is
    dispatched once and gets exactly one result entry with the block's
    identifier, the entries standing in the order of the blocks; no
    inference call is made while they are collected; the assistant message
    comes first and the entries follow it as one user message; and any later
    inference call, in the loop or after it, is made on the messages that
    include them. *)
Theorem tool_round_results (manager : ToolManager) (v : Locals) (h : Trace)
  (response : Response) :
  tool_manager = Some manager ->
  messages_create self h (params (conversation v)) = Ok response ->
  stop_reason response = "tool_use" ->
  exists calls results v' (ds : list Dispatch),
    (body v h = Some (Ok (Continue v'), (h ++ recorded v h :: calls)%list) \/
     body v h = Some (Ok (Break v'), (h ++ recorded v h :: calls)%list)) /\
    filter is_tool_use (content response)
    = map (fun d => ToolUseBlock (dispatch_id d) (dispatch_name d)
                      (dispatch_input d)) ds /\
    calls
    = map (fun d => ToolCall (dispatch_name d) (dispatch_input d)
                      (dispatch_outcome d)) ds /\
    results
    = map (fun d =>
             {| result_type := "tool_result";
                tool_use_id := dispatch_id d;
                result_content :=
                  match dispatch_outcome d with
                  | Ok tool_result => tool_result
                  | Err e => "Tool execution failed: " ++ str e
                  end |}) ds /\
    Forall2 (fun b r => exists id name input outcome,
               b = ToolUseBlock id name input /\
               r = tool_result_of id outcome /\
               tool_use_id r = id)
            (filter is_tool_use (content response)) results /\
    Forall2 (fun b c => exists id name input outcome,
               b = ToolUseBlock id name input /\
               c = ToolCall name input outcome)
            (filter is_tool_use (content response)) calls /\
    api_call_count calls = 0 /\
    round_count v' = round_count v + 1 /\
    conversation v'
    = (conversation v
         ++ {| role := "assistant";
               message_content := Blocks (content response) |}
         :: match results with
            | [] => []
            | _ :: _ =>
                [{| role := "user";
                    message_content := ToolResults results |}]
            end)%list /\
    messages (params (conversation v')) = conversation v' /\
    messages (final_params sc (conversation v')) = conversation v'.
Proof.
  intros Hmgr Hcall Hstop.
  destruct (loop_body_tool_round sc tool_catalog tool_manager v h response
              manager Hcall Hstop Hmgr)
    as (calls & results & Hans & _ & Hbody).
  rewrite <- app_assoc in Hbody. cbn [app] in Hbody.
  destruct (answered_dispatched _ _ _ Hans) as (ds & Hblocks & Hcalls & Hres).
  exists calls, results, (after_round v response results), ds.
  split.
  { destruct (existsb call_failed calls); [now right|now left]. }
  split; [exact Hblocks|]. split; [exact Hcalls|]. split; [exact Hres|].
  split; [exact (answered_results _ _ _ Hans)|].
  split; [exact (answered_calls _ _ _ Hans)|].
  split.
  { unfold api_call_count. now rewrite (answered_only_tool_calls _ _ _ Hans). }
  split; [reflexivity|].
  split.
  { unfold after_round. cbn [conversation].
    destruct results as [|r results']; [reflexivity|].
    now rewrite <- app_assoc. }
  split; [apply params_messages|reflexivity].
Qed.

(** C9.  A response that signals tool use but holds no [tool_use] block,
    with a tool manager supplied, still counts a round: the counter goes up
    by one, the assistant message holding the response's content is
    appended, no results message is appended, nothing is dispatched, and the
    loop goes on.  Two such responses in a row use up the budget: the third
    inference call is the one after the loop, made without the catalog on
    the query message followed by the two assistant messages. *)
Theorem empty_tool_round (manager : ToolManager) (h : Trace) :
  tool_manager = Some manager ->
  (forall v hv response,
      messages_create self hv (params (conversation v)) = Ok response ->
      stop_reason response = "tool_use" ->
      filter is_tool_use (content response) = [] ->
      body v hv
      = Some (Ok (Continue
                    {| round_count := round_count v + 1;
                       conversation :=
                         (conversation v
                            ++ [{| role := "assistant";
                                   message_content :=
                                     Blocks (content response) |}])%list |}),
              (hv ++ [ApiCall (round_info_of (round_count v))
                        (params (conversation v)) (Ok response)])%list))
  /\
  (forall r1 r2,
      messages_create self h
        (params [{| role := "user"; message_content := PlainText query |}])
      = Ok r1 ->
      stop_reason r1 = "tool_use" ->
      filter is_tool_use (content r1) = [] ->
      messages_create self
        (h ++ [ApiCall "Initial"
                 (params [{| role := "user";
                             message_content := PlainText query |}])
                 (Ok r1)])%list
        (params [{| role := "user"; message_content := PlainText query |};
                 {| role := "assistant";
                    message_content := Blocks (content r1) |}])
      = Ok r2 ->
      stop_reason r2 = "tool_use" ->
      filter is_tool_use (content r2) = [] ->
      exists outcome h3,
        outcome
        = messages_create self
            (h ++ [ApiCall "Initial"
                     (params [{| role := "user";
                                 message_content := PlainText query |}])
                     (Ok r1);
                   ApiCall "Round 2"
                     (params [{| role := "user";
                                 message_content := PlainText query |};
                              {| role := "assistant";
                                 message_content := Blocks (content r1) |}])
                     (Ok r2)])%list
            {| model := self_model self; temperature := 0;
               max_tokens := 800;
               messages :=
                 [{| role := "user"; message_content := PlainText query |};
                  {| role := "assistant";
                     message_content := Blocks (content r1) |};
                  {| role := "assistant";
                     message_content := Blocks (content r2) |}];
               system := sc;
               tools := None; tool_choice := None |} /\
        generate h = Some (Ok (final_text outcome), h3) /\
        h3
        = (h ++ [ApiCall "Initial"
                   (params [{| role := "user";
                               message_content := PlainText query |}])
                   (Ok r1);
                 ApiCall "Round 2"
                   (params [{| role := "user";
                               message_content := PlainText query |};
                            {| role := "assistant";
                               message_content := Blocks (content r1) |}])
                   (Ok r2);
                 ApiCall "Final"
                   {| model := self_model self; temperature := 0;
                      max_tokens := 800;
                      messages :=
                        [{| role := "user";
                            message_content := PlainText query |};
                         {| role := "assistant";
                            message_content := Blocks (content r1) |};
                         {| role := "assistant";
                            message_content := Blocks (content r2) |}];
                      system := sc;
                      tools := None; tool_choice := None |}
                   outcome])%list /\
        api_call_count h3 = api_call_count h + 3 /\
        tool_call_count h3 = tool_call_count h).
Proof.
  intros Hmgr.
  assert (Hround : forall v hv response,
             messages_create self hv (params (conversation v)) = Ok response ->
             stop_reason response = "tool_use" ->
             filter is_tool_use (content response) = [] ->
             body v hv
             = Some (Ok (Continue
                           {| round_count := round_count v + 1;
                              conversation :=
                                (conversation v
                                   ++ [assistant_message response])%list |}),
                     (hv ++ [recorded v hv])%list)).
  { intros v hv response Hcall Hstop Hnone.
    destruct (loop_body_tool_round sc tool_catalog tool_manager v hv response
                manager Hcall Hstop Hmgr)
      as (calls & results & Hans & _ & Hbody).
    destruct (answered_without_tool_use _ _ _ Hans Hnone) as [-> ->].
    rewrite Hbody. cbn [existsb]. now rewrite app_nil_r. }
  split.
  { intros v hv response Hcall Hstop Hnone.
    rewrite (Hround v hv response Hcall Hstop Hnone).
    unfold loop_call. now rewrite Hcall. }
  intros r1 r2 Hcall1 Hstop1 Hnone1 Hcall2 Hstop2 Hnone2.
  pose proof (Hround start h r1 Hcall1 Hstop1 Hnone1) as Hbody1.
  unfold loop_call in Hbody1.
  cbn [round_count conversation initial_locals Nat.add app] in Hbody1.
  change (params [user_message query])
    with (params [{| role := "user"; message_content := PlainText query |}])
    in Hbody1.
  rewrite Hcall1 in Hbody1. change (round_info_of 0) with "Initial" in Hbody1.
  set (v1 := {| round_count := 1;
                conversation := [user_message query; assistant_message r1] |})
    in *.
  set (h1 := (h ++ [ApiCall "Initial"
                      (params [{| role := "user";
                                  message_content := PlainText query |}])
                      (Ok r1)])%list) in *.
  pose proof (Hround v1 h1 r2 Hcall2 Hstop2 Hnone2) as Hbody2.
  unfold loop_call in Hbody2.
  cbn [round_count conversation v1 Nat.add app] in Hbody2.
  change (params [user_message query; assistant_message r1])
    with (params [{| role := "user"; message_content := PlainText query |};
                  {| role := "assistant";
                     message_content := Blocks (content r1) |}])
    in Hbody2.
  rewrite Hcall2 in Hbody2. change (round_info_of 1) with "Round 2" in Hbody2.
  set (v2 := {| round_count := 2;
                conversation := [user_message query; assistant_message r1;
                                 assistant_message r2] |}) in *.
  assert (Hk : completed max_rounds start h v2
                 (h1 ++ [ApiCall "Round 2"
                           (params [{| role := "user";
                                       message_content := PlainText query |};
                                    {| role := "assistant";
                                       message_content :=
                                         Blocks (content r1) |}])
                           (Ok r2)])%list).
  { apply rounds_S with (v1 := v1) (h1 := h1);
      [cbn; unfold max_rounds; lia|exact Hbody1|].
    apply rounds_S with (v1 := v2)
      (h1 := (h1 ++ [ApiCall "Round 2"
                       (params [{| role := "user";
                                   message_content := PlainText query |};
                                {| role := "assistant";
                                   message_content :=
                                     Blocks (content r1) |}])
                       (Ok r2)])%list);
      [cbn; unfold max_rounds; lia|exact Hbody2|].
    apply rounds_O. }
  eexists _, _. split; [reflexivity|].
  rewrite (generate_response_exhausted h _ _ Hk).
  unfold final_call, final_params, base_with, h1.
  rewrite <- !app_assoc. cbn [app].
  split; [reflexivity|]. split; [reflexivity|].
  rewrite api_call_count_app, tool_call_count_app. cbn. split; lia.
Qed.

(** C7, as the code has it.  The system content sent with every inference
    call of a run is the preamble followed by the previous-conversation
    section holding the history when the history is a non-empty string, and
    the preamble alone when there is no history or it is empty; the first
    call is made on a single user message holding exactly the query. *)
Theorem system_context_composition (h : Trace) :
  (forall c s,
      conversation_history = Some (String c s) ->
      sc = SYSTEM_PROMPT ++ nl ++ nl ++ "Previous conversation:" ++ nl
           ++ String c s)
  /\
  (conversation_history = None \/ conversation_history = Some "" ->
   sc = SYSTEM_PROMPT)
  /\
  exists outcome first rest,
    generate h
    = Some (outcome,
            (h ++ ApiCall "Initial" (params [user_message query]) first
               :: rest)%list) /\
    messages (params [user_message query])
    = [{| role := "user"; message_content := PlainText query |}] /\
    system (params [user_message query]) = sc /\
    Forall (call_system_is sc) rest.
Proof.
  split; [|split].
  - intros c s ->. reflexivity.
  - intros [->| ->]; reflexivity.
  - destruct (generate_response_run h) as (outcome & rest & Hgen & Hsys & _).
    exists outcome,
      (messages_create self h (params [user_message query])), rest.
    split; [exact Hgen|].
    split; [apply params_messages|].
    split; [apply params_messages|].
    now inversion Hsys.
Qed.

End Invocation.

(** C10.  An empty history string is treated as no history: the run is the
    same as with [None], and every inference call it makes is sent the
    preamble alone as system content. *)
Theorem empty_history_as_none (query : string)
  (tool_catalog : option (list ToolDef)) (tool_manager : option ToolManager)
  (h : Trace) :
  system_content_of (Some "") = SYSTEM_PROMPT /\
  generate_response query (Some "") tool_catalog tool_manager h
  = generate_response query None tool_catalog tool_manager h /\
  exists outcome calls,
    generate_response query (Some "") tool_catalog tool_manager h
    = Some (outcome, (h ++ calls)%list) /\
    calls <> [] /\
    Forall (call_system_is SYSTEM_PROMPT) calls.
Proof.
  split; [reflexivity|]. split; [reflexivity|].
  destruct (generate_response_run query (Some "") tool_catalog tool_manager h)
    as (outcome & rest & Hgen & Hsys & _).
  eexists _, _. split; [exact Hgen|]. split; [discriminate|exact Hsys].
Qed.

End Orchestrator.

(** ** Scripted collaborators

    The test suite drives the method with mocks that answer from a list,
    one entry per call.  The same is done here: the [n]-th inference call
    gets the [n]-th entry of the script, and likewise for dispatches. *)

Definition Kwargs : Type := list (string * string).

Definition scripted_client (script : list (Result (@Response Kwargs)))
  : @AIGenerator string Kwargs :=
  {| messages_create := fun h _ =>
       nth (api_call_count h) script (Err (RaisedError "StopIteration"));
     self_model := "claude-sonnet-4-20250514" |}.

Definition scripted_tools (script : list (Result string))
  : @ToolManager string Kwargs :=
  {| execute_tool := fun h _ _ =>
       nth (tool_call_count h) script (Err (RaisedError "StopIteration")) |}.

Definition catalog : option (list string) :=
  Some ["get_course_outline"; "search_course_content"].

Definition text_response : @Response Kwargs :=
  {| stop_reason := "end_turn"; content := [TextBlock "Test response"] |}.

Definition outline_request : @Response Kwargs :=
  {| stop_reason := "tool_use";
     content := [ToolUseBlock "tool1" "get_course_outline"
                   [("course_id", "course1")]] |}.

Definition search_request : @Response Kwargs :=
  {| stop_reason := "tool_use";
     content := [ToolUseBlock "tool2" "search_course_content"
                   [("query", "lesson 4 content")]] |}.

Definition final_response : @Response Kwargs :=
  {| stop_reason := "end_turn";
     content := [TextBlock "Final synthesized response"] |}.

(** A request for two tools, with a text block before them. *)
Definition double_request : @Response Kwargs :=
  {| stop_reason := "tool_use";
     content := [TextBlock "Let me look that up.";
                 ToolUseBlock "tool1" "get_course_outline"
                   [("course_id", "course1")];
                 ToolUseBlock "tool2" "search_course_content"
                   [("query", "lesson 4 content")]] |}.

(** A tool-use response whose text block comes after the tool block. *)
Definition late_text_request : @Response Kwargs :=
  {| stop_reason := "tool_use";
     content := [ToolUseBlock "tool1" "search_course_content"
                   [("query", "machine learning")];
                 TextBlock "Searching the course material."] |}.

(** A response that signals tool use and holds no tool block. *)
Definition hollow_request : @Response Kwargs :=
  {| stop_reason := "tool_use"; content := [TextBlock "One moment."] |}.

Definition api_error : Exception := RaisedError "API Error".
Definition tool_error : Exception := RaisedError "Tool failed".

Definition trip_query : string :=
  "Find lesson 4 of course X and search for similar content".

(** The parameters of a loop call of a scripted run with the catalog. *)
Definition scripted_params (msgs : list (@Message Kwargs))
  : @ApiParams string Kwargs :=
  loop_params (scripted_client []) SYSTEM_PROMPT catalog msgs.

Definition outline_call : @Call string Kwargs :=
  ToolCall "get_course_outline" [("course_id", "course1")]
    (Ok "Course outline result").

Definition search_call : @Call string Kwargs :=
  ToolCall "search_course_content" [("query", "lesson 4 content")]
    (Ok "Search result").

(** The state of a run on [trip_query] after its first round. *)
Definition after_first : @Locals Kwargs :=
  {| round_count := 1;
     conversation :=
       [user_message trip_query;
        assistant_message outline_request;
        tool_results_message
          [tool_result_ok "tool1" "Course outline result"]] |}.

Definition history_first : @Trace string Kwargs :=
  [ApiCall "Initial" (scripted_params [user_message trip_query])
     (Ok outline_request);
   outline_call].

(** And after its second round. *)
Definition after_second : @Locals Kwargs :=
  {| round_count := 2;
     conversation :=
       (conversation after_first
          ++ [assistant_message search_request;
              tool_results_message
                [tool_result_ok "tool2" "Search result"]])%list |}.

Definition history_second : @Trace string Kwargs :=
  (history_first
     ++ [ApiCall "Round 2" (scripted_params (conversation after_first))
           (Ok search_request);
         search_call])%list.

Definition both_tools : @ToolManager string Kwargs :=
  scripted_tools [Ok "Course outline result"; Ok "Search result"].

Definition failing_tools : @ToolManager string Kwargs :=
  scripted_tools [Err tool_error; Ok "Search result"].

(** ** The theorems at work on scripted runs *)

Lemma no_tool_use_single_call_witness :
  messages_create (scripted_client [Ok text_response]) []
    (loop_params (scripted_client [Ok text_response])
       (system_content_of None) catalog
       [user_message "What is machine learning?"])
  = Ok text_response /\
  stop_reason text_response <> "tool_use" /\
  exists h',
    generate_response (scripted_client [Ok text_response])
      "What is machine learning?" None catalog
      (Some (scripted_tools [])) []
    = Some (Ok "Test response", h') /\
    api_call_count h' = 1 /\ tool_call_count h' = 0.
Proof.
  assert (H1 : messages_create (scripted_client [Ok text_response]) []
                 (loop_params (scripted_client [Ok text_response])
                    (system_content_of None) catalog
                    [user_message "What is machine learning?"])
               = Ok text_response) by reflexivity.
  assert (H2 : stop_reason text_response <> "tool_use") by discriminate.
  split; [exact H1|]. split; [exact H2|].
  destruct (no_tool_use_single_call (scripted_client [Ok text_response])
              "What is machine learning?" None catalog
              (Some (scripted_tools [])) [] text_response H1 H2)
    as (h' & Hrun & _ & Hapi & Htool & _).
  exists h'. split; [exact Hrun|]. split; [exact Hapi|exact Htool].
Defined.

(** A response that does not signal tool use and holds no block. *)
Definition empty_response : @Response Kwargs :=
  {| stop_reason := "end_turn"; content := [] |}.

(** C5 as stated fails for a first response without a first content block:
    the response does not signal tool use, one inference call is made, and
    the method returns no text; it raises the fault of reading
    [content[0]]. *)
Lemma no_tool_use_single_call_counterexample :
  (stop_reason empty_response =? "tool_use") = false /\
  content empty_response = [] /\
  generate_response (scripted_client [Ok empty_response])
    "What is machine learning?" None catalog (Some (scripted_tools [])) []
  = Some (Err IndexError,
          [ApiCall "Initial"
             (loop_params (scripted_client [Ok empty_response])
                SYSTEM_PROMPT catalog
                [user_message "What is machine learning?"])
             (Ok empty_response)]).
Proof.
  split; [reflexivity|]. split; reflexivity.
Qed.

Lemma tool_use_without_manager_witness :
  messages_create (scripted_client [Ok double_request]) []
    (loop_params (scripted_client [Ok double_request])
       (system_content_of None) catalog
       [user_message "Outline of course1?"])
  = Ok double_request /\
  stop_reason double_request = "tool_use" /\
  exists h',
    generate_response (scripted_client [Ok double_request])
      "Outline of course1?" None catalog None []
    = Some (Ok "Let me look that up.", h') /\
    api_call_count h' = 1 /\ tool_call_count h' = 0.
Proof.
  assert (H1 : messages_create (scripted_client [Ok double_request]) []
                 (loop_params (scripted_client [Ok double_request])
                    (system_content_of None) catalog
                    [user_message "Outline of course1?"])
               = Ok double_request) by reflexivity.
  split; [exact H1|]. split; [reflexivity|].
  destruct (tool_use_without_manager (scripted_client [Ok double_request])
              "Outline of course1?" None catalog None [] double_request
              eq_refl H1 eq_refl)
    as (h' & _ & _ & Hapi & Htool & Htext).
  exists h'. split; [exact (Htext _ _ eq_refl)|].
  split; [exact Hapi|exact Htool].
Defined.

(** C6 as stated fails: the response below holds a text block, after its
    tool block, and no tool manager is supplied; the method does not return
    that text, it raises the fault of reading [content[0].text]. *)
Lemma tool_use_without_manager_counterexample :
  stop_reason late_text_request = "tool_use" /\
  first_text_block_available (content late_text_request)
  = Some "Searching the course material." /\
  generate_response (scripted_client [Ok late_text_request])
    "What is machine learning?" None catalog None []
  = Some (Err (AttributeError "'ToolUseBlock' object has no attribute 'text'"),
          [ApiCall "Initial"
             (loop_params (scripted_client [Ok late_text_request])
                SYSTEM_PROMPT catalog
                [user_message "What is machine learning?"])
             (Ok late_text_request)]).
Proof.
  split; [reflexivity|]. split; reflexivity.
Qed.

(** One round, then two, of a scripted run on [trip_query]. *)
Lemma first_round_completed (later : list (Result (@Response Kwargs))) :
  rounds (scripted_client (Ok outline_request :: later)) SYSTEM_PROMPT catalog
    (Some both_tools) 1 (initial_locals trip_query) [] after_first
    history_first.
Proof.
  apply rounds_S with (v1 := after_first) (h1 := history_first).
  - cbn. unfold max_rounds. lia.
  - reflexivity.
  - apply rounds_O.
Qed.

Lemma second_round_completed (later : list (Result (@Response Kwargs))) :
  rounds (scripted_client (Ok outline_request :: Ok search_request :: later))
    SYSTEM_PROMPT catalog (Some both_tools) 2 (initial_locals trip_query) []
    after_second history_second.
Proof.
  apply rounds_S with (v1 := after_first) (h1 := history_first).
  - cbn. unfold max_rounds. lia.
  - reflexivity.
  - apply rounds_S with (v1 := after_second) (h1 := history_second).
    + cbn. unfold max_rounds. lia.
    + reflexivity.
    + apply rounds_O.
Qed.

Lemma round_budget_witness :
  truthy_list catalog = true /\
  rounds (scripted_client
            [Ok outline_request; Ok search_request; Ok final_response])
    (system_content_of None) catalog (Some both_tools) max_rounds
    (initial_locals trip_query) [] after_second history_second /\
  exists h3,
    generate_response
      (scripted_client
         [Ok outline_request; Ok search_request; Ok final_response])
      trip_query None catalog (Some both_tools) []
    = Some (Ok "Final synthesized response", h3) /\
    api_call_count h3 = 3 /\ tool_call_count h3 = 2.
Proof.
  pose proof (second_round_completed [Ok final_response]) as Hk.
  split; [reflexivity|]. split; [exact Hk|].
  destruct (round_budget
              (scripted_client
                 [Ok outline_request; Ok search_request; Ok final_response])
              trip_query None catalog (Some both_tools) [] eq_refl)
    as (_ & _ & _ & Hfull).
  destruct (Hfull after_second history_second Hk)
    as (_ & outcome & h3 & Hout & Hgen & Hh3 & Hcount).
  exists h3. subst outcome. split; [exact Hgen|]. split; [exact Hcount|].
  rewrite Hh3. reflexivity.
Defined.

Lemma inference_failure_policy_witness :
  generate_response (scripted_client [Err api_error]) "test query"
    None None None []
  = Some (Err api_error,
          [ApiCall "Initial"
             (loop_params (scripted_client [Err api_error]) SYSTEM_PROMPT None
                [user_message "test query"])
             (Err api_error)]) /\
  generate_response (scripted_client [Ok outline_request; Err api_error])
    trip_query None catalog (Some both_tools) []
  = Some (Ok "Error in round 2: API Error",
          (history_first
             ++ [ApiCall "Round 2" (scripted_params (conversation after_first))
                   (Err api_error)])%list) /\
  generate_response
    (scripted_client [Ok outline_request; Ok search_request; Err api_error])
    trip_query None catalog (Some both_tools) []
  = Some (Ok "Error generating final response: API Error",
          (history_second
             ++ [ApiCall "Final"
                   (final_params (scripted_client []) SYSTEM_PROMPT
                      (conversation after_second))
                   (Err api_error)])%list).
Proof.
  split; [|split].
  - apply (proj1 (inference_failure_policy (scripted_client [Err api_error])
                    "test query" None None None [] api_error)).
    reflexivity.
  - apply (proj1 (proj2 (inference_failure_policy
                           (scripted_client [Ok outline_request; Err api_error])
                           trip_query None catalog (Some both_tools) []
                           api_error))
             1 after_first history_first).
    + lia.
    + apply first_round_completed.
    + cbn. unfold max_rounds. lia.
    + reflexivity.
  - apply (proj2 (proj2 (inference_failure_policy
                           (scripted_client
                              [Ok outline_request; Ok search_request;
                               Err api_error])
                           trip_query None catalog (Some both_tools) []
                           api_error))
             after_second history_second).
    + reflexivity.
    + reflexivity.
Defined.


Lemma tool_round_results_witness :
  messages_create (scripted_client [Ok double_request; Ok final_response]) []
    (loop_params (scripted_client [Ok double_request; Ok final_response])
       (system_content_of None) catalog
       (conversation (initial_locals trip_query)))
  = Ok double_request /\
  stop_reason double_request = "tool_use" /\
  exists (calls : @Trace string Kwargs) (results : list ToolResult)
         (v' : @Locals Kwargs),
    loop_body (scripted_client [Ok double_request; Ok final_response])
      (system_content_of None) catalog (Some both_tools)
      (initial_locals trip_query) []
    = Some (Ok (Continue v'),
            ApiCall "Initial" (scripted_params [user_message trip_query])
              (Ok double_request) :: calls) /\
    calls = [outline_call; search_call] /\
    results
    = [{| result_type := "tool_result"; tool_use_id := "tool1";
          result_content := "Course outline result" |};
       {| result_type := "tool_result"; tool_use_id := "tool2";
          result_content := "Search result" |}] /\
    conversation v'
    = [{| role := "user"; message_content := PlainText trip_query |};
       {| role := "assistant";
          message_content := Blocks (content double_request) |};
       {| role := "user"; message_content := ToolResults results |}].
Proof.
  split; [reflexivity|]. split; [reflexivity|].
  destruct (tool_round_results
              (scripted_client [Ok double_request; Ok final_response])
              None catalog (Some both_tools) both_tools
              (initial_locals trip_query) [] double_request
              eq_refl eq_refl eq_refl)
    as (calls & results & v' & ds & Hbody & Hblocks & Hcalls & Hres & _ & _ & _
        & _ & Hconv & _).
  assert (Hrun : loop_body
                   (scripted_client [Ok double_request; Ok final_response])
                   (system_content_of None) catalog (Some both_tools)
                   (initial_locals trip_query) []
                 = Some (Ok (Continue
                               {| round_count := 1;
                                  conversation :=
                                    [user_message trip_query;
                                     assistant_message double_request;
                                     tool_results_message
                                       [tool_result_ok "tool1"
                                          "Course outline result";
                                        tool_result_ok "tool2"
                                          "Search result"]] |}),
                         [ApiCall "Initial"
                            (scripted_params [user_message trip_query])
                            (Ok double_request);
                          outline_call; search_call])) by reflexivity.
  rewrite Hrun in Hbody.
  destruct Hbody as [Hbody|Hbody]; [|discriminate Hbody].
  injection Hbody as Hv' Hcalls'.
  exists calls, results, v'.
  rewrite <- Hv' in Hconv. cbn in Hconv.
  destruct results as [|r results']; [discriminate Hconv|].
  injection Hconv as Hr Hrest.
  split.
  { rewrite Hrun, Hv', <- Hcalls'. reflexivity. }
  split; [now rewrite <- Hcalls'|].
  split; [now rewrite <- Hr, <- Hrest|].
  rewrite <- Hv'. cbn. now rewrite <- Hr, <- Hrest.
Defined.

Lemma empty_tool_round_witness :
  generate_response
    (scripted_client [Ok hollow_request; Ok hollow_request; Ok final_response])
    "What is machine learning?" None catalog (Some both_tools) []
  = Some (Ok "Final synthesized response",
          [ApiCall "Initial"
             (scripted_params
                [{| role := "user";
                    message_content := PlainText "What is machine learning?" |}])
             (Ok hollow_request);
           ApiCall "Round 2"
             (scripted_params
                [{| role := "user";
                    message_content := PlainText "What is machine learning?" |};
                 {| role := "assistant";
                    message_content := Blocks [TextBlock "One moment."] |}])
             (Ok hollow_request);
           ApiCall "Final"
             {| model := "claude-sonnet-4-20250514"; temperature := 0;
                max_tokens := 800;
                messages :=
                  [{| role := "user";
                      message_content :=
                        PlainText "What is machine learning?" |};
                   {| role := "assistant";
                      message_content := Blocks [TextBlock "One moment."] |};
                   {| role := "assistant";
                      message_content := Blocks [TextBlock "One moment."] |}];
                system := SYSTEM_PROMPT;
                tools := None; tool_choice := None |}
             (Ok final_response)]).
Proof.
  destruct (proj2 (empty_tool_round
                     (scripted_client
                        [Ok hollow_request; Ok hollow_request;
                         Ok final_response])
                     "What is machine learning?" None catalog
                     (Some both_tools) both_tools [] eq_refl)
              hollow_request hollow_request
              eq_refl eq_refl eq_refl eq_refl eq_refl eq_refl)
    as (outcome & h3 & Hout & Hgen & Hh3 & _).
  subst outcome h3. exact Hgen.
Defined.

(** C7 as stated fails for a history that is the empty string: the system
    content sent is the preamble alone, not the preamble followed by a
    previous-conversation section. *)
Lemma system_context_counterexample :
  generate_response (scripted_client [Ok text_response])
    "What is machine learning?" (Some "") None None []
  = Some (Ok "Test response",
          [ApiCall "Initial"
             {| model := "claude-sonnet-4-20250514"; temperature := 0;
                max_tokens := 800;
                messages := [user_message "What is machine learning?"];
                system := SYSTEM_PROMPT;
                tools := None; tool_choice := None |}
             (Ok text_response)]) /\
  SYSTEM_PROMPT
  <> SYSTEM_PROMPT ++ nl ++ nl ++ "Previous conversation:" ++ nl ++ "".
Proof.
  split; [reflexivity|].
  intros Heq. apply (f_equal String.length) in Heq.
  vm_compute in Heq. discriminate.
Qed.

Lemma first_block_text_precondition_witness :
  (exists e, first_block_text late_text_request = Err e) /\
  loop_body (scripted_client [Ok late_text_request]) SYSTEM_PROMPT catalog None
    (initial_locals "What is machine learning?") []
  = Some (Err (AttributeError "'ToolUseBlock' object has no attribute 'text'"),
          [ApiCall "Initial"
             (scripted_params [user_message "What is machine learning?"])
             (Ok late_text_request)]) /\
  final_synthesis (scripted_client [Ok late_text_request]) SYSTEM_PROMPT
    [user_message "What is machine learning?"] []
  = Some (Ok ("Error generating final response: "
              ++ "'ToolUseBlock' object has no attribute 'text'"),
          [ApiCall "Final"
             (final_params (scripted_client []) SYSTEM_PROMPT
                [user_message "What is machine learning?"])
             (Ok late_text_request)]).
Proof.
  destruct (first_block_text_precondition
              (scripted_client [Ok late_text_request]) None catalog None
              late_text_request)
    as (_ & Hfault & Hloop & Hfinal).
  split; [|split].
  - apply Hfault. intros text rest. discriminate.
  - apply (Hloop (initial_locals "What is machine learning?") []);
      [reflexivity|now right].
  - apply (Hfinal [user_message "What is machine learning?"] []).
    reflexivity.
Defined.

(** ** The scenarios of the test suite *)

Definition single_request : @Response Kwargs :=
  {| stop_reason := "tool_use";
     content := [ToolUseBlock "tool_123" "search_course_content"
                   [("query", "machine learning")]] |}.

Definition single_final : @Response Kwargs :=
  {| stop_reason := "end_turn";
     content := [TextBlock "Final response with tool results"] |}.

Example single_tool_use_scenario :
  exists h',
    generate_response (scripted_client [Ok single_request; Ok single_final])
      "What is machine learning?" None (Some ["search_course_content"])
      (Some (scripted_tools [Ok "Tool execution result"])) []
    = Some (Ok "Final response with tool results", h') /\
    api_call_count h' = 2 /\
    filter is_tool_call h'
    = [ToolCall "search_course_content" [("query", "machine learning")]
         (Ok "Tool execution result")].
Proof.
  eexists. split; [reflexivity|]. split; reflexivity.
Qed.

Example max_rounds_scenario :
  exists h',
    generate_response
      (scripted_client [Ok single_request; Ok single_request; Ok single_final])
      "Test query" None (Some ["search_course_content"])
      (Some (scripted_tools [Ok "Tool result"; Ok "Tool result"])) []
    = Some (Ok "Final response with tool results", h') /\
    api_call_count h' = 3 /\ tool_call_count h' = 2.
Proof.
  eexists. split; [reflexivity|]. split; reflexivity.
Qed.

Example api_error_scenario :
  exists h',
    generate_response (scripted_client [Err api_error]) "test query"
      None None None []
    = Some (Err api_error, h') /\ api_call_count h' = 1.
Proof.
  eexists. split; reflexivity.
Qed.

(** * Further properties of the method

    What follows looks at whole runs of [generate_response]: the requests it
    sends, the shape of its exchange with the collaborators, when it raises,
    and how the conversation grows. *)

(** The labels of the inference calls of a history, in order. *)
Definition api_labels {ToolDef ToolInput : Type}
  (h : @Trace ToolDef ToolInput) : list string :=
  flat_map (fun c => match c with
                     | ApiCall round_info _ _ => [round_info]
                     | ToolCall _ _ _ => []
                     end) h.

(** What every request of a run has in common:
    [self.base_params], the system content, and the catalog with
    [tool_choice = {"type": "auto"}] on the calls of the loop when the
    catalog is non-empty, and on no other call. *)
Definition request_in_order {ToolDef ToolInput : Type}
  (self : @AIGenerator ToolDef ToolInput) (system_content : string)
  (tool_catalog : option (list ToolDef)) (c : @Call ToolDef ToolInput) : Prop :=
  match c with
  | ToolCall _ _ _ => True
  | ApiCall round_info api_params _ =>
      model api_params = self_model self /\
      temperature api_params = 0 /\
      max_tokens api_params = 800 /\
      system api_params = system_content /\
      (round_info = "Initial" \/ round_info = "Round 2"
       \/ round_info = "Final") /\
      (if (round_info =? "Final") || negb (truthy_list tool_catalog)
       then tools api_params = None /\ tool_choice api_params = None
       else tools api_params = tool_catalog /\
            tool_choice api_params = Some {| choice_type := "auto" |})
  end.

Section Further.

Context {ToolDef ToolInput : Type}.
Variable self : @AIGenerator ToolDef ToolInput.
Variable query : string.
Variable conversation_history : option string.
Variable tool_catalog : option (list ToolDef).
Variable tool_manager : option (@ToolManager ToolDef ToolInput).

Local Abbreviation sc := (system_content_of conversation_history).
Local Abbreviation generate :=
  (generate_response self query conversation_history tool_catalog
     tool_manager).
Local Abbreviation loop := (while_loop self sc tool_catalog tool_manager).
Local Abbreviation body := (loop_body self sc tool_catalog tool_manager).
Local Abbreviation params := (loop_params self sc tool_catalog).
Local Abbreviation recorded := (loop_call self sc tool_catalog).
Local Abbreviation completed := (rounds self sc tool_catalog tool_manager).
Local Abbreviation start := (@initial_locals ToolInput query).
Local Abbreviation step_of := (iteration self sc tool_catalog tool_manager).

(** An iteration raises only when it was entered with the counter at 0,
    and then it has made its inference call and nothing else. *)
Lemma iteration_raises v h e h' :
  step_of v h (Err e) h' ->
  round_count v = 0 /\
  h' = (h ++ [recorded v h])%list /\
  (messages_create self h (params (conversation v)) = Err e \/
   exists response,
     messages_create self h (params (conversation v)) = Ok response /\
     first_block_text response = Err e /\
     ((stop_reason response =? "tool_use") = false \/ tool_manager = None)).
Proof.
  intros Hit. inversion Hit as [e0 Hcall Hstep Hh
                               |response Hcall Hterm Hstep Hh
                               |response manager calls results
                                  Hcall Hstop Hmgr Hans Hstep Hh].
  - unfold handled in Hstep.
    destruct (Nat.eqb_spec (round_count v) 0) as [Hz|Hnz]; [|discriminate].
    inversion Hstep; subst e0. split; [exact Hz|]. split; [reflexivity|].
    now left.
  - destruct (first_block_text response) as [text|e1] eqn:Hread;
      [discriminate|].
    unfold handled in Hstep.
    destruct (Nat.eqb_spec (round_count v) 0) as [Hz|Hnz]; [|discriminate].
    inversion Hstep; subst e1. split; [exact Hz|]. split; [reflexivity|].
    right. exists response. now repeat split.
Qed.

(** Once a round has been counted the loop no longer raises. *)
Lemma while_loop_no_raise fuel :
  forall v h e h',
    0 < round_count v -> loop fuel v h <> Some (Err e, h').
Proof.
  induction fuel as [|fuel IH]; intros v h e h' Hpos Hrun.
  - destruct (Nat.lt_ge_cases (round_count v) max_rounds) as [Hlt|Hge].
    + cbn [while_loop] in Hrun.
      rewrite (proj2 (Nat.ltb_lt _ _) Hlt) in Hrun. discriminate.
    + rewrite (while_loop_done self sc tool_catalog tool_manager 0 v h Hge)
        in Hrun. discriminate.
  - destruct (Nat.lt_ge_cases (round_count v) max_rounds) as [Hlt|Hge].
    + rewrite (while_loop_step self sc tool_catalog tool_manager fuel v h Hlt)
        in Hrun.
      destruct (loop_body_iteration self sc tool_catalog tool_manager v h)
        as (step & h1 & Hbody & Hit).
      rewrite Hbody in Hrun.
      destruct step as [[v1|v1|text]|e1]; try discriminate.
      * apply (IH v1 h1 e h'); [|exact Hrun].
        rewrite (iteration_counts self sc tool_catalog tool_manager
                   v h _ h1 Hit v1 (or_introl eq_refl)). lia.
      * destruct (iteration_raises v h e1 h1 Hit) as (Hz & _). lia.
    + rewrite (while_loop_done self sc tool_catalog tool_manager _ v h Hge)
        in Hrun. discriminate.
Qed.

(** X1.  The method raises only out of its first iteration.  When it
    raises, it has made exactly one inference call and dispatched nothing,
    and the fault is either the one the client raised or the one of reading
    [content[0].text] of a first response that ended the exchange. *)
Theorem raises_only_at_first_call (h h' : Trace) (e : Exception) :
  generate h = Some (Err e, h') ->
  h' = (h ++ [ApiCall "Initial" (params [user_message query])
                (messages_create self h (params [user_message query]))])%list
  /\
  (messages_create self h (params [user_message query]) = Err e \/
   exists response,
     messages_create self h (params [user_message query]) = Ok response /\
     first_block_text response = Err e /\
     (stop_reason response <> "tool_use" \/ tool_manager = None)).
Proof.
  intros Hgen.
  assert (Hlt : round_count start < max_rounds)
    by (cbn; unfold max_rounds; lia).
  rewrite (generate_response_next self query conversation_history tool_catalog
             tool_manager h 0 start h
             (rounds_O self sc tool_catalog tool_manager start h) Hlt)
    in Hgen.
  destruct (loop_body_iteration self sc tool_catalog tool_manager start h)
    as (step & h1 & Hbody & Hit).
  rewrite Hbody in Hgen.
  destruct step as [[v1|v1|text]|e1].
  - exfalso.
    pose proof (iteration_counts self sc tool_catalog tool_manager
                  start h _ h1 Hit v1 (or_introl eq_refl)) as Hv1.
    cbn in Hv1.
    destruct (loop (max_rounds - 1) v1 h1) as [[[[text|v2]|e2] h2]|] eqn:Hloop;
      cbn [finish] in Hgen; try discriminate.
    + rewrite final_synthesis_run in Hgen. discriminate.
    + apply (while_loop_no_raise (max_rounds - 1) v1 h1 e2 h2);
        [lia|exact Hloop].
  - cbn [finish] in Hgen. rewrite final_synthesis_run in Hgen. discriminate.
  - discriminate.
  - cbn [finish] in Hgen. inversion Hgen; subst e1 h1.
    destruct (iteration_raises start h e h' Hit) as (_ & Hh' & Hwhy).
    split; [exact Hh'|].
    destruct Hwhy as [Hcall|(response & Hcall & Hread & Hterm)];
      [now left|right].
    exists response. split; [exact Hcall|]. split; [exact Hread|].
    destruct Hterm as [Hstop|Hnone]; [left|now right].
    now apply String.eqb_neq.
Qed.

(** ** The shape of a run *)

Lemma api_labels_app (a b : @Trace ToolDef ToolInput) :
  api_labels (a ++ b)%list = (api_labels a ++ api_labels b)%list.
Proof.
  unfold api_labels. apply flat_map_app.
Qed.

Lemma api_labels_count (a : @Trace ToolDef ToolInput) :
  api_call_count a = length (api_labels a).
Proof.
  unfold api_call_count, api_labels.
  induction a as [|c a IH]; [reflexivity|].
  destruct c; cbn; now rewrite IH.
Qed.

Lemma tool_calls_labels (calls : @Trace ToolDef ToolInput) :
  filter is_api_call calls = [] -> api_labels calls = [].
Proof.
  induction calls as [|c calls IH]; intros Hnone; [reflexivity|].
  destruct c; cbn in Hnone; [discriminate|]. cbn. now apply IH.
Qed.

Lemma tool_calls_in_order (calls : @Trace ToolDef ToolInput) :
  filter is_api_call calls = [] ->
  Forall (request_in_order self sc tool_catalog) calls.
Proof.
  induction calls as [|c calls IH]; intros Hnone; [constructor|].
  destruct c; cbn in Hnone; [discriminate|].
  constructor; [exact I|now apply IH].
Qed.

(** The exchanges of a run, after the history it started from: the initial
    call and the dispatches of its round; then either nothing, or the call
    after the loop, or a second call of the loop with the dispatches of its
    round, itself followed or not by the call after the loop. *)
Inductive run_calls (h : Trace) : list Call -> Prop :=
| run_initial tcs1 :
    filter is_api_call tcs1 = [] ->
    run_calls h (recorded start h :: tcs1)
| run_initial_final tcs1 v1 :
    filter is_api_call tcs1 = [] ->
    run_calls h
      (recorded start h :: tcs1
         ++ [final_call self sc (conversation v1)
               (h ++ recorded start h :: tcs1)])%list
| run_second tcs1 v1 tcs2 :
    filter is_api_call tcs1 = [] ->
    round_count v1 = 1 ->
    filter is_api_call tcs2 = [] ->
    run_calls h
      (recorded start h :: tcs1
         ++ recorded v1 (h ++ recorded start h :: tcs1) :: tcs2)%list
| run_second_final tcs1 v1 tcs2 v2 :
    filter is_api_call tcs1 = [] ->
    round_count v1 = 1 ->
    filter is_api_call tcs2 = [] ->
    run_calls h
      (recorded start h :: tcs1
         ++ recorded v1 (h ++ recorded start h :: tcs1) :: tcs2
         ++ [final_call self sc (conversation v2)
               ((h ++ recorded start h :: tcs1)
                  ++ recorded v1 (h ++ recorded start h :: tcs1) :: tcs2)])%list.

Lemma generate_response_calls (h : Trace) :
  exists outcome calls,
    generate h = Some (outcome, (h ++ calls)%list) /\ run_calls h calls.
Proof.
  assert (Hlt : round_count start < max_rounds)
    by (cbn; unfold max_rounds; lia).
  rewrite (generate_response_next self query conversation_history tool_catalog
             tool_manager h 0 start h
             (rounds_O self sc tool_catalog tool_manager start h) Hlt).
  destruct (loop_body_iteration self sc tool_catalog tool_manager start h)
    as (step & h1 & Hbody & Hit).
  rewrite Hbody.
  destruct (iteration_history self sc tool_catalog tool_manager
              start h step h1 Hit) as (tcs1 & Hh1 & Htcs1).
  assert (Hh1' : h1 = (h ++ recorded start h :: tcs1)%list)
    by (rewrite Hh1; now rewrite <- app_assoc).
  clear Hh1. subst h1.
  destruct step as [[v1|v1|text]|e1]; cbn [finish].
  - pose proof (iteration_counts self sc tool_catalog tool_manager
                  start h _ _ Hit v1 (or_introl eq_refl)) as Hv1.
    cbn in Hv1.
    assert (Hlt1 : round_count v1 < max_rounds)
      by (rewrite Hv1; unfold max_rounds; lia).
    change (max_rounds - 1) with 1.
    rewrite (while_loop_step self sc tool_catalog tool_manager 0 v1 _ Hlt1).
    destruct (loop_body_iteration self sc tool_catalog tool_manager v1
                (h ++ recorded start h :: tcs1)%list)
      as (step2 & h2 & Hbody2 & Hit2).
    rewrite Hbody2.
    destruct (iteration_history self sc tool_catalog tool_manager
                v1 _ step2 h2 Hit2) as (tcs2 & Hh2 & Htcs2).
    assert (Hh2' : h2 = ((h ++ recorded start h :: tcs1)
                           ++ recorded v1 (h ++ recorded start h :: tcs1)
                           :: tcs2)%list)
      by (rewrite Hh2; now rewrite <- app_assoc).
    clear Hh2. subst h2.
    destruct step2 as [[v2|v2|text]|e2]; cbn [finish].
    + pose proof (iteration_counts self sc tool_catalog tool_manager
                    v1 _ _ _ Hit2 v2 (or_introl eq_refl)) as Hv2.
      rewrite (while_loop_done self sc tool_catalog tool_manager 0 v2 _)
        by (rewrite Hv2, Hv1; unfold max_rounds; lia).
      cbn [finish]. rewrite final_synthesis_run.
      eexists. eexists. split;
        [|exact (run_second_final h tcs1 v1 tcs2 v2 Htcs1 Hv1 Htcs2)].
      f_equal. f_equal. rewrite <- !app_assoc. reflexivity.
    + rewrite final_synthesis_run.
      eexists. eexists. split;
        [|exact (run_second_final h tcs1 v1 tcs2 v2 Htcs1 Hv1 Htcs2)].
      f_equal. f_equal. rewrite <- !app_assoc. reflexivity.
    + eexists. eexists. split;
        [|exact (run_second h tcs1 v1 tcs2 Htcs1 Hv1 Htcs2)].
      f_equal. f_equal. rewrite <- !app_assoc. reflexivity.
    + eexists. eexists. split;
        [|exact (run_second h tcs1 v1 tcs2 Htcs1 Hv1 Htcs2)].
      f_equal. f_equal. rewrite <- !app_assoc. reflexivity.
  - rewrite final_synthesis_run.
    eexists. eexists. split; [|exact (run_initial_final h tcs1 v1 Htcs1)].
    f_equal. f_equal. rewrite <- !app_assoc. reflexivity.
  - eexists. eexists. split; [reflexivity|exact (run_initial h tcs1 Htcs1)].
  - eexists. eexists. split; [reflexivity|exact (run_initial h tcs1 Htcs1)].
Qed.

Lemma recorded_label v h :
  api_labels [recorded v h] = [round_info_of (round_count v)].
Proof.
  reflexivity.
Qed.

Lemma run_calls_labels (h : Trace) calls :
  run_calls h calls ->
  api_labels calls = ["Initial"] \/
  api_labels calls = ["Initial"; "Final"] \/
  api_labels calls = ["Initial"; "Round 2"] \/
  api_labels calls = ["Initial"; "Round 2"; "Final"].
Proof.
  intros [tcs1 H1|tcs1 v1 H1|tcs1 v1 tcs2 H1 Hv1 H2
          |tcs1 v1 tcs2 v2 H1 Hv1 H2].
  - left.
    change (recorded start h :: tcs1) with ([recorded start h] ++ tcs1)%list.
    now rewrite api_labels_app, (tool_calls_labels tcs1 H1).
  - right; left.
    change (recorded start h :: tcs1 ++ ?x)%list
      with ([recorded start h] ++ tcs1 ++ x)%list.
    now rewrite !api_labels_app, (tool_calls_labels tcs1 H1).
  - right; right; left.
    change (recorded start h :: tcs1 ++ ?x :: tcs2)%list
      with ([recorded start h] ++ tcs1 ++ [x] ++ tcs2)%list.
    rewrite !api_labels_app, (tool_calls_labels tcs1 H1),
      (tool_calls_labels tcs2 H2), !recorded_label, Hv1.
    reflexivity.
  - right; right; right.
    change (recorded start h :: tcs1 ++ ?x :: tcs2 ++ ?y)%list
      with ([recorded start h] ++ tcs1 ++ [x] ++ tcs2 ++ y)%list.
    rewrite !api_labels_app, (tool_calls_labels tcs1 H1),
      (tool_calls_labels tcs2 H2), !recorded_label, Hv1.
    reflexivity.
Qed.

(** X2.  Every run ends, and its inference calls are, in order, the
    initial one, then possibly a second call of the loop, then possibly the
    call after the loop: between one and three calls, never more.  *)
Theorem inference_call_labels (h : Trace) :
  exists outcome calls,
    generate h = Some (outcome, (h ++ calls)%list) /\
    (api_labels calls = ["Initial"] \/
     api_labels calls = ["Initial"; "Final"] \/
     api_labels calls = ["Initial"; "Round 2"] \/
     api_labels calls = ["Initial"; "Round 2"; "Final"]) /\
    1 <= api_call_count calls <= 3.
Proof.
  destruct (generate_response_calls h) as (outcome & calls & Hgen & Hshape).
  exists outcome, calls. split; [exact Hgen|].
  pose proof (run_calls_labels h calls Hshape) as Hlabels.
  split; [exact Hlabels|].
  rewrite api_labels_count.
  destruct Hlabels as [-> | [-> | [-> | ->]]]; cbn; lia.
Qed.

Lemma recorded_in_order v h :
  round_count v = 0 \/ round_count v = 1 ->
  request_in_order self sc tool_catalog (recorded v h).
Proof.
  intros Hrc. unfold loop_call, request_in_order, loop_params, base_with.
  destruct Hrc as [-> | ->]; cbn [round_info_of Nat.ltb Nat.leb];
    destruct (truthy_list tool_catalog); cbn; intuition reflexivity.
Qed.

Lemma final_in_order msgs h :
  request_in_order self sc tool_catalog (final_call self sc msgs h).
Proof.
  unfold final_call, request_in_order, final_params, base_with. cbn.
  intuition reflexivity.
Qed.

Lemma run_calls_in_order (h : Trace) calls :
  run_calls h calls -> Forall (request_in_order self sc tool_catalog) calls.
Proof.
  intros Hshape.
  assert (Hstart : request_in_order self sc tool_catalog (recorded start h))
    by (apply recorded_in_order; now left).
  destruct Hshape as [tcs1 H1|tcs1 v1 H1|tcs1 v1 tcs2 H1 Hv1 H2
                      |tcs1 v1 tcs2 v2 H1 Hv1 H2].
  - constructor; [exact Hstart|now apply tool_calls_in_order].
  - constructor; [exact Hstart|]. apply Forall_app.
    split; [now apply tool_calls_in_order|].
    constructor; [apply final_in_order|constructor].
  - constructor; [exact Hstart|]. apply Forall_app.
    split; [now apply tool_calls_in_order|].
    constructor; [apply recorded_in_order; now right
                 |now apply tool_calls_in_order].
  - constructor; [exact Hstart|]. apply Forall_app.
    split; [now apply tool_calls_in_order|].
    constructor; [apply recorded_in_order; now right|].
    apply Forall_app. split; [now apply tool_calls_in_order|].
    constructor; [apply final_in_order|constructor].
Qed.

(** X3.  Every request of a run carries the generator's model,
    temperature 0 and 800 maximum tokens (the base parameters set by
    [__init__]) and the same system content.  The calls of the loop carry
    the catalog and [tool_choice = auto] exactly when the catalog is
    non-empty; the call after the loop carries neither. *)
Theorem requests_in_order (h : Trace) :
  exists outcome calls,
    generate h = Some (outcome, (h ++ calls)%list) /\
    Forall (request_in_order self sc tool_catalog) calls.
Proof.
  destruct (generate_response_calls h) as (outcome & calls & Hgen & Hshape).
  exists outcome, calls. split; [exact Hgen|].
  exact (run_calls_in_order h calls Hshape).
Qed.

(** ** How the conversation grows *)

(** An iteration that counts a round is a tool round: it received a
    response, dispatched its blocks, and left the locals of [after_round]. *)
Lemma counted_round v h v' h' :
  step_of v h (Ok (Continue v')) h' \/ step_of v h (Ok (Break v')) h' ->
  exists response calls results,
    messages_create self h (params (conversation v)) = Ok response /\
    stop_reason response = "tool_use" /\
    h' = (h ++ ApiCall (round_info_of (round_count v))
                 (params (conversation v)) (Ok response) :: calls)%list /\
    answered (content response) calls results /\
    v' = after_round v response results.
Proof.
  intros Hit.
  assert (Hgen : forall step,
             step_of v h step h' ->
             step = Ok (Continue v') \/ step = Ok (Break v') ->
             exists response calls results,
               messages_create self h (params (conversation v)) = Ok response
               /\ stop_reason response = "tool_use"
               /\ h' = (h ++ ApiCall (round_info_of (round_count v))
                              (params (conversation v)) (Ok response)
                              :: calls)%list
               /\ answered (content response) calls results
               /\ v' = after_round v response results).
  { intros step Hstep Hwhich.
    destruct Hstep as [e _|response _ _
                       |response manager calls results Hcall Hstop _ Hans].
    - unfold handled in Hwhich.
      destruct (Nat.eqb (round_count v) 0); destruct Hwhich; discriminate.
    - unfold handled in Hwhich.
      destruct (first_block_text response);
        destruct (Nat.eqb (round_count v) 0); destruct Hwhich; discriminate.
    - exists response, calls, results.
      split; [exact Hcall|]. split; [exact Hstop|]. split.
      + unfold loop_call. rewrite Hcall. now rewrite <- app_assoc.
      + split; [exact Hans|].
        destruct (existsb call_failed calls);
          destruct Hwhich as [Hw|Hw]; now inversion Hw. }
  destruct Hit as [Hit|Hit]; eapply Hgen; eauto.
Qed.

Lemma after_round_conversation (v : Locals) (response : Response)
  (results : list ToolResult) :
  conversation (after_round v response results)
  = (conversation v
       ++ {| role := "assistant";
             message_content := Blocks (content response) |}
       :: match results with
          | [] => @nil (@Message ToolInput)
          | _ :: _ =>
              [{| role := "user"; message_content := ToolResults results |}]
          end)%list.
Proof.
  unfold after_round. cbn [conversation].
  destruct results as [|r results']; [reflexivity|].
  now rewrite <- app_assoc.
Qed.

(** A message that holds only what the history [hk] shows was received:
    the content of a response, or entries each made from the outcome of a
    dispatch. *)
Definition held_in (hk : @Trace ToolDef ToolInput)
  (m : @Message ToolInput) : Prop :=
  (exists label api_params response,
      In (ApiCall label api_params (Ok response)) hk /\
      m = {| role := "assistant";
             message_content := Blocks (content response) |})
  \/
  (exists entry entries,
      m = {| role := "user";
             message_content := ToolResults (entry :: entries) |} /\
      Forall (fun r =>
                result_type r = "tool_result" /\
                exists name input outcome,
                  In (ToolCall name input outcome) hk /\
                  result_content r =
                    match outcome with
                    | Ok tool_result => tool_result
                    | Err e => "Tool execution failed: " ++ str e
                    end)
             (entry :: entries)).

Lemma held_in_later hk hk' m :
  (forall c, In c hk -> In c hk') -> held_in hk m -> held_in hk' m.
Proof.
  intros Hsub [(label & api_params & response & Hin & Hm)
              |(entry & entries & Hm & Hall)].
  - left. exists label, api_params, response. split; [now apply Hsub|exact Hm].
  - right. exists entry, entries. split; [exact Hm|].
    eapply Forall_impl; [|exact Hall].
    intros r (Htype & name & input & outcome & Hin & Hcontent).
    split; [exact Htype|].
    exists name, input, outcome. split; [now apply Hsub|exact Hcontent].
Qed.

(** The messages a counted round appends hold what the round received. *)
Lemma round_held v h response calls results :
  answered (content response) calls results ->
  Forall (held_in (h ++ ApiCall (round_info_of (round_count v))
                         (params (conversation v)) (Ok response)
                         :: calls)%list)
    ({| role := "assistant"; message_content := Blocks (content response) |}
     :: match results with
        | [] => @nil (@Message ToolInput)
        | _ :: _ =>
            [{| role := "user"; message_content := ToolResults results |}]
        end).
Proof.
  intros Hans. constructor.
  - left. eexists _, _, response. split; [|reflexivity].
    apply in_or_app. right. now left.
  - destruct results as [|r results'] eqn:Hres; [constructor|].
    rewrite <- Hres in *. constructor; [|constructor].
    right. exists r, results'. rewrite Hres. split; [reflexivity|].
    rewrite <- Hres.
    destruct (answered_dispatched _ _ _ Hans) as (ds & _ & Hcalls & Hresults).
    rewrite Hresults. apply Forall_forall. intros entry Hentry.
    apply in_map_iff in Hentry. destruct Hentry as (d & <- & Hd).
    split; [reflexivity|].
    exists (dispatch_name d), (dispatch_input d), (dispatch_outcome d).
    split; [|reflexivity].
    apply in_or_app. right. right. rewrite Hcalls.
    apply in_map_iff. now exists d.
Qed.

Lemma rounds_held k v h v' h' :
  completed k v h v' h' ->
  exists suffix,
    conversation v' = (conversation v ++ suffix)%list /\
    k <= length suffix <= 2 * k /\
    Forall (held_in h') suffix.
Proof.
  induction 1 as [|k v h v1 h1 v2 h2 Hlt Hbody Hrest IH].
  - exists []. rewrite app_nil_r. split; [reflexivity|].
    split; [cbn; lia|constructor].
  - pose proof (body_iteration self sc tool_catalog tool_manager
                  v h _ h1 Hbody) as Hit.
    destruct (counted_round v h v1 h1 (or_introl Hit))
      as (response & calls & results & _ & _ & Hh1 & Hans & Hv1).
    destruct IH as (suffix & Hv2 & Hlen & Hheld).
    destruct (rounds_invariant self sc tool_catalog tool_manager
                k v1 h1 v2 h2 Hrest) as (_ & _ & more & Hh2 & _).
    set (added :=
           ({| role := "assistant";
               message_content := Blocks (content response) |}
            :: match results with
               | [] => @nil (@Message ToolInput)
               | _ :: _ =>
                   [{| role := "user";
                       message_content := ToolResults results |}]
               end) : list (@Message ToolInput)).
    exists (added ++ suffix)%list. split; [|split].
    + rewrite Hv2, Hv1, after_round_conversation. fold added.
      now rewrite <- app_assoc.
    + rewrite length_app. unfold added. destruct results; cbn [length]; lia.
    + apply Forall_app. split; [|exact Hheld].
      eapply Forall_impl; [|exact (round_held v h response calls results Hans)].
      intros m. apply held_in_later. intros c Hc.
      rewrite Hh2, Hh1. apply in_or_app. now left.
Qed.

(** X4.  The conversation is append-only and holds only what was
    received.  After [k] completed rounds it is the user message holding
    the query followed by between [k] and [2k] messages, each of them an
    assistant message holding the content of a response the history shows
    was received, or a user message holding a non-empty list of
    [tool_result] entries each made from the outcome of a dispatch the
    history shows.  A further tool round, on the response it receives,
    keeps all of them and appends the assistant message holding that
    response's content, followed by the user message holding the round's
    entries when there is at least one. *)
Theorem conversation_append_only (h : Trace) k v hk :
  completed k start h v hk ->
  (exists suffix,
      conversation v
      = {| role := "user"; message_content := PlainText query |} :: suffix /\
      k <= length suffix <= 2 * k /\
      Forall (fun m =>
                (exists label api_params response,
                    In (ApiCall label api_params (Ok response)) hk /\
                    m = {| role := "assistant";
                           message_content := Blocks (content response) |})
                \/
                (exists entry entries,
                    m = {| role := "user";
                           message_content :=
                             ToolResults (entry :: entries) |} /\
                    Forall (fun r =>
                              result_type r = "tool_result" /\
                              exists name input outcome,
                                In (ToolCall name input outcome) hk /\
                                result_content r =
                                  match outcome with
                                  | Ok tool_result => tool_result
                                  | Err e =>
                                      "Tool execution failed: " ++ str e
                                  end)
                           (entry :: entries)))
             suffix) /\
  (forall manager response,
      tool_manager = Some manager ->
      messages_create self hk (params (conversation v)) = Ok response ->
      stop_reason response = "tool_use" ->
      exists calls v' (ds : list Dispatch),
        (body v hk
         = Some (Ok (Continue v'), (hk ++ recorded v hk :: calls)%list) \/
         body v hk
         = Some (Ok (Break v'), (hk ++ recorded v hk :: calls)%list)) /\
        filter is_tool_use (content response)
        = map (fun d => ToolUseBlock (dispatch_id d) (dispatch_name d)
                          (dispatch_input d)) ds /\
        calls
        = map (fun d => ToolCall (dispatch_name d) (dispatch_input d)
                          (dispatch_outcome d)) ds /\
        conversation v'
        = (conversation v
             ++ {| role := "assistant";
                   message_content := Blocks (content response) |}
             :: match ds with
                | [] => @nil (@Message ToolInput)
                | _ :: _ =>
                    [{| role := "user";
                        message_content :=
                          ToolResults
                            (map (fun d =>
                                    {| result_type := "tool_result";
                                       tool_use_id := dispatch_id d;
                                       result_content :=
                                         match dispatch_outcome d with
                                         | Ok tool_result => tool_result
                                         | Err e =>
                                             "Tool execution failed: "
                                             ++ str e
                                         end |}) ds) |}]
                end)%list).
Proof.
  intros Hk. split.
  - destruct (rounds_held k start h v hk Hk) as (suffix & Hv & Hlen & Hheld).
    exists suffix. split; [exact Hv|]. split; [exact Hlen|exact Hheld].
  - intros manager response Hmgr Hcall Hstop.
    destruct (loop_body_tool_round self sc tool_catalog tool_manager v hk
                response manager Hcall Hstop Hmgr)
      as (calls & results & Hans & _ & Hbody).
    rewrite <- app_assoc in Hbody. cbn [app] in Hbody.
    destruct (answered_dispatched _ _ _ Hans) as (ds & Hblocks & Hcalls & Hres).
    exists calls, (after_round v response results), ds.
    split.
    { destruct (existsb call_failed calls); [now right|now left]. }
    split; [exact Hblocks|]. split; [exact Hcalls|].
    rewrite after_round_conversation, Hres.
    destruct ds; reflexivity.
Qed.

(** ** How a tool round ends *)

(** X5.  A tool round ends the loop exactly when one of its dispatches
    raised; when every dispatch returned, the loop goes on.  Either way the
    round is counted, and the entries the round appends to the conversation
    are, block by block, [tool_result] entries carrying the block's
    identifier and the tool's text unchanged, or the failure text of the
    dispatch that raised. *)
Theorem round_breaks_iff_dispatch_raises (manager : ToolManager)
  (v : Locals) (h : Trace) (response : Response) :
  tool_manager = Some manager ->
  messages_create self h (params (conversation v)) = Ok response ->
  stop_reason response = "tool_use" ->
  exists calls v' (ds : list Dispatch),
    round_count v' = round_count v + 1 /\
    filter is_tool_use (content response)
    = map (fun d => ToolUseBlock (dispatch_id d) (dispatch_name d)
                      (dispatch_input d)) ds /\
    calls
    = map (fun d => ToolCall (dispatch_name d) (dispatch_input d)
                      (dispatch_outcome d)) ds /\
    conversation v'
    = (conversation v
         ++ {| role := "assistant";
               message_content := Blocks (content response) |}
         :: match ds with
            | [] => @nil (@Message ToolInput)
            | _ :: _ =>
                [{| role := "user";
                    message_content :=
                      ToolResults
                        (map (fun d =>
                                {| result_type := "tool_result";
                                   tool_use_id := dispatch_id d;
                                   result_content :=
                                     match dispatch_outcome d with
                                     | Ok tool_result => tool_result
                                     | Err e =>
                                         "Tool execution failed: " ++ str e
                                     end |}) ds) |}]
            end)%list /\
    (((exists d e, In d ds /\ dispatch_outcome d = Err e) /\
      body v h = Some (Ok (Break v'), (h ++ recorded v h :: calls)%list))
     \/
     ((forall d, In d ds -> exists text, dispatch_outcome d = Ok text) /\
      body v h = Some (Ok (Continue v'), (h ++ recorded v h :: calls)%list))).
Proof.
  intros Hmgr Hcall Hstop.
  destruct (loop_body_tool_round self sc tool_catalog tool_manager v h response
              manager Hcall Hstop Hmgr)
    as (calls & results & Hans & _ & Hbody).
  rewrite <- app_assoc in Hbody. cbn [app] in Hbody.
  destruct (answered_dispatched _ _ _ Hans) as (ds & Hblocks & Hcalls & Hres).
  exists calls, (after_round v response results), ds.
  split; [reflexivity|]. split; [exact Hblocks|]. split; [exact Hcalls|].
  split.
  { rewrite after_round_conversation, Hres. destruct ds; reflexivity. }
  destruct (existsb call_failed calls) eqn:Hfail.
  - left. split; [|exact Hbody].
    apply answered_failure in Hfail.
    destruct Hfail as (name & input & e & Hin).
    rewrite Hcalls in Hin. apply in_map_iff in Hin.
    destruct Hin as (d & Hd & Hdin).
    exists d, e. split; [exact Hdin|]. now inversion Hd.
  - right. split; [|exact Hbody].
    intros d Hd.
    destruct (dispatch_outcome d) as [text|e] eqn:Hout; [now exists text|].
    assert (Htrue : existsb call_failed calls = true).
    { apply answered_failure.
      exists (dispatch_name d), (dispatch_input d), e.
      rewrite Hcalls. apply in_map_iff. exists d. now rewrite Hout. }
    congruence.
Qed.

(** X6.  After one completed tool round, a second response that does not
    signal tool use ends the run with exactly two inference calls: the
    second is a call of the loop, labelled [Round 2], not the call after
    the loop.  Its text is returned; a fault of reading it is not raised
    but returned as [Error in round 2: cause]. *)
Theorem second_call_answer (h : Trace) v1 h1 (response : Response) :
  completed 1 start h v1 h1 ->
  messages_create self h1 (params (conversation v1)) = Ok response ->
  stop_reason response <> "tool_use" ->
  generate h
  = Some (Ok (match first_block_text response with
              | Ok text => text
              | Err e => "Error in round 2: " ++ str e
              end),
          (h1 ++ [ApiCall "Round 2" (params (conversation v1))
                    (Ok response)])%list) /\
  api_call_count (h1 ++ [ApiCall "Round 2" (params (conversation v1))
                           (Ok response)])%list
  = api_call_count h + 2.
Proof.
  intros Hk Hcall Hstop.
  destruct (rounds_invariant self sc tool_catalog tool_manager
              1 start h v1 h1 Hk)
    as (Hrc & _ & calls & Hh1 & Hn & _).
  cbn in Hrc.
  assert (Hlt : round_count v1 < max_rounds)
    by (rewrite Hrc; unfold max_rounds; lia).
  apply String.eqb_neq in Hstop.
  split.
  - rewrite (generate_response_next self query conversation_history
               tool_catalog tool_manager h 1 v1 h1 Hk Hlt).
    rewrite (loop_body_terminal self sc tool_catalog tool_manager v1 h1
               response Hcall (or_introl Hstop)).
    unfold loop_call. rewrite Hcall, Hrc.
    destruct (first_block_text response) as [text|e]; reflexivity.
  - rewrite api_call_count_app, Hh1, api_call_count_app, Hn. cbn. lia.
Qed.

End Further.

(** X7.  An empty catalog is treated as no catalog: the run is the same
    as with [None], and no request of it carries [tools] or
    [tool_choice]. *)
Theorem empty_catalog_as_none {ToolDef ToolInput : Type}
  (self : @AIGenerator ToolDef ToolInput) (query : string)
  (conversation_history : option string)
  (tool_manager : option (@ToolManager ToolDef ToolInput)) (h : Trace) :
  generate_response self query conversation_history (Some []) tool_manager h
  = generate_response self query conversation_history None tool_manager h /\
  exists outcome calls,
    generate_response self query conversation_history (Some []) tool_manager h
    = Some (outcome, (h ++ calls)%list) /\
    Forall (fun c => match c with
                     | ApiCall _ api_params _ =>
                         tools api_params = None /\
                         tool_choice api_params = None
                     | ToolCall _ _ _ => True
                     end) calls.
Proof.
  split; [reflexivity|].
  destruct (generate_response_calls self query conversation_history (Some [])
              tool_manager h) as (outcome & calls & Hgen & Hshape).
  exists outcome, calls. split; [exact Hgen|].
  pose proof (run_calls_in_order self query conversation_history (Some [])
                h calls Hshape) as Hall.
  eapply Forall_impl; [|exact Hall].
  intros [round_info api_params out|name input out]; [|trivial].
  cbn. rewrite orb_true_r. tauto.
Qed.

(** ** The further properties on scripted runs *)

Lemma raises_only_at_first_call_witness :
  generate_response (scripted_client [Err api_error]) "test query"
    None catalog (Some both_tools) []
  = Some (Err api_error,
          [ApiCall "Initial" (scripted_params [user_message "test query"])
             (Err api_error)]) /\
  messages_create (scripted_client [Err api_error]) []
    (scripted_params [user_message "test query"])
  = Err api_error.
Proof.
  assert (Hgen : generate_response (scripted_client [Err api_error])
                   "test query" None catalog (Some both_tools) []
                 = Some (Err api_error,
                         [ApiCall "Initial"
                            (scripted_params [user_message "test query"])
                            (Err api_error)])) by reflexivity.
  split; [exact Hgen|].
  destruct (raises_only_at_first_call (scripted_client [Err api_error])
              "test query" None catalog (Some both_tools) [] _ api_error Hgen)
    as (_ & [Hcall|(response & Hcall & _)]).
  - exact Hcall.
  - discriminate Hcall.
Defined.

Lemma conversation_append_only_witness :
  rounds (scripted_client
            [Ok outline_request; Ok search_request; Ok final_response])
    (system_content_of None) catalog (Some both_tools) 1
    (initial_locals trip_query) [] after_first history_first /\
  messages_create
    (scripted_client [Ok outline_request; Ok search_request; Ok final_response])
    history_first (scripted_params (conversation after_first))
  = Ok search_request /\
  (exists suffix,
      conversation after_first
      = {| role := "user"; message_content := PlainText trip_query |}
        :: suffix /\
      1 <= length suffix <= 2) /\
  exists v' : @Locals Kwargs,
    conversation v'
    = [{| role := "user"; message_content := PlainText trip_query |};
       {| role := "assistant";
          message_content := Blocks (content outline_request) |};
       {| role := "user";
          message_content :=
            ToolResults
              [{| result_type := "tool_result"; tool_use_id := "tool1";
                  result_content := "Course outline result" |}] |};
       {| role := "assistant";
          message_content := Blocks (content search_request) |};
       {| role := "user";
          message_content :=
            ToolResults
              [{| result_type := "tool_result"; tool_use_id := "tool2";
                  result_content := "Search result" |}] |}].
Proof.
  pose proof (first_round_completed [Ok search_request; Ok final_response])
    as Hk.
  split; [exact Hk|]. split; [reflexivity|].
  destruct (conversation_append_only
              (scripted_client
                 [Ok outline_request; Ok search_request; Ok final_response])
              trip_query None catalog (Some both_tools) []
              1 after_first history_first Hk)
    as ((suffix & Hv & Hlen & _) & Hnext).
  split; [exists suffix; split; [exact Hv|exact Hlen]|].
  destruct (Hnext both_tools search_request eq_refl eq_refl eq_refl)
    as (calls & v' & ds & Hbody & _ & _ & _).
  assert (Hrun : loop_body
                   (scripted_client
                      [Ok outline_request; Ok search_request;
                       Ok final_response])
                   (system_content_of None) catalog (Some both_tools)
                   after_first history_first
                 = Some (Ok (Continue after_second), history_second))
    by reflexivity.
  rewrite Hrun in Hbody.
  destruct Hbody as [Hbody|Hbody]; [|discriminate Hbody].
  injection Hbody as Hv' _.
  exists v'. rewrite <- Hv'. reflexivity.
Defined.

Lemma round_breaks_iff_dispatch_raises_witness :
  messages_create (scripted_client [Ok double_request; Ok final_response]) []
    (scripted_params (conversation (initial_locals trip_query)))
  = Ok double_request /\
  stop_reason double_request = "tool_use" /\
  exists (calls : @Trace string Kwargs) (v' : @Locals Kwargs),
    round_count v' = 1 /\
    loop_body (scripted_client [Ok double_request; Ok final_response])
      (system_content_of None) catalog (Some failing_tools)
      (initial_locals trip_query) []
    = Some (Ok (Break v'),
            ApiCall "Initial" (scripted_params [user_message trip_query])
              (Ok double_request) :: calls) /\
    calls
    = [ToolCall "get_course_outline" [("course_id", "course1")]
         (Err tool_error);
       search_call].
Proof.
  split; [reflexivity|]. split; [reflexivity|].
  destruct (round_breaks_iff_dispatch_raises
              (scripted_client [Ok double_request; Ok final_response])
              None catalog (Some failing_tools) failing_tools
              (initial_locals trip_query) [] double_request
              eq_refl eq_refl eq_refl)
    as (calls & v' & ds & Hrc & _ & _ & _ & Hend).
  assert (Hrun : loop_body
                   (scripted_client [Ok double_request; Ok final_response])
                   (system_content_of None) catalog (Some failing_tools)
                   (initial_locals trip_query) []
                 = Some (Ok (Break
                               {| round_count := 1;
                                  conversation :=
                                    [user_message trip_query;
                                     assistant_message double_request;
                                     tool_results_message
                                       [tool_result_failed "tool1" tool_error;
                                        tool_result_ok "tool2"
                                          "Search result"]] |}),
                         [ApiCall "Initial"
                            (scripted_params [user_message trip_query])
                            (Ok double_request);
                          ToolCall "get_course_outline"
                            [("course_id", "course1")] (Err tool_error);
                          search_call])) by reflexivity.
  destruct Hend as [[_ Hbody]|[_ Hbody]];
    rewrite Hrun in Hbody; [|discriminate Hbody].
  injection Hbody as Hv' Hcalls.
  exists calls, v'. split; [exact Hrc|].
  split; [|now rewrite <- Hcalls].
  rewrite Hrun, Hv', <- Hcalls. reflexivity.
Defined.

Lemma second_call_answer_witness :
  rounds (scripted_client [Ok outline_request; Ok text_response])
    (system_content_of None) catalog (Some both_tools) 1
    (initial_locals trip_query) [] after_first history_first /\
  stop_reason text_response <> "tool_use" /\
  generate_response (scripted_client [Ok outline_request; Ok text_response])
    trip_query None catalog (Some both_tools) []
  = Some (Ok "Test response",
          (history_first
             ++ [ApiCall "Round 2" (scripted_params (conversation after_first))
                   (Ok text_response)])%list).
Proof.
  pose proof (first_round_completed [Ok text_response]) as Hk.
  assert (Hstop : stop_reason text_response <> "tool_use") by discriminate.
  split; [exact Hk|]. split; [exact Hstop|].
  exact (proj1 (second_call_answer
                  (scripted_client [Ok outline_request; Ok text_response])
                  trip_query None catalog (Some both_tools) []
                  after_first history_first text_response
                  Hk eq_refl Hstop)).
Defined.
